(** * A shallow embedding of the simple-raytracer core

    The Python sources ([ray.py], [utils.py], [shaders.py], [raytrace.py],
    [sky.py]) are embedded function by function.  numpy's float64 scalars
    are idealised as real numbers, and [/] with a float operand is the
    division of reals; between two Python ints [/] is the floor division
    of Python 2, the language of [main.py] (its [print] statements): the
    two such divisions of the sources are the literals [3 / 4] and
    [1 / np.power(WAVE_LENGTHS, 4)] of [sky.py].  The sentinel [-1] of the
    intersections is an int as well: where [sky.py] divides a distance by
    a number of samples, the properties below ask for a distance that is
    not the sentinel.  A numpy array of three floats is a [vec3];
    [np.inf] is an explicit extra value; an exception is an error result;
    the draws from numpy's global random generator are a stream that is
    threaded through the atmospheric functions. *)

From Stdlib Require Import Reals Lra Lia List String ZArith Bool.
From Stdlib Require Import FunctionalExtensionality.
Import ListNotations.
Open Scope R_scope.

(** ** Scalars: the comparisons of Python on floats *)

Definition ltb (x y : R) : bool := if Rlt_dec x y then true else false.
Definition leb (x y : R) : bool := if Rle_dec x y then true else false.
Definition eqb (x y : R) : bool := if Req_dec_T x y then true else false.

(** [np.inf] is only ever used as the initial value of a running minimum. *)
Inductive ext : Type :=
| Fin (t : R)
| Inf.

(** [t < m] for a finite [t] and a running minimum [m]. *)
Definition lt_ext (t : R) (m : ext) : bool :=
  match m with
  | Fin m' => ltb t m'
  | Inf => true
  end.

(** ** numpy arrays of three floats *)

Record vec3 : Type := mkvec { vx : R; vy : R; vz : R }.

Definition vmap (f : R -> R) (a : vec3) : vec3 :=
  mkvec (f (vx a)) (f (vy a)) (f (vz a)).
Definition vzip (f : R -> R -> R) (a b : vec3) : vec3 :=
  mkvec (f (vx a) (vx b)) (f (vy a) (vy b)) (f (vz a) (vz b)).

Definition vadd : vec3 -> vec3 -> vec3 := vzip Rplus.
Definition vsub : vec3 -> vec3 -> vec3 := vzip Rminus.
Definition vmul : vec3 -> vec3 -> vec3 := vzip Rmult.
Definition vscale (t : R) : vec3 -> vec3 := vmap (Rmult t).
Definition vdivs (a : vec3) (t : R) : vec3 := vmap (fun x => x / t) a.
Definition vneg : vec3 -> vec3 := vmap Ropp.
Definition vfill (x : R) : vec3 := mkvec x x x.
Definition zeros : vec3 := vfill 0.

(** [np.dot] on two arrays of three floats. *)
Definition dot (a b : vec3) : R := vx a * vx b + vy a * vy b + vz a * vz b.

(** [np.linalg.norm]. *)
Definition norm (a : vec3) : R := sqrt (dot a a).

Declare Scope vec_scope.
Delimit Scope vec_scope with V.
Infix "+" := vadd : vec_scope.
Infix "-" := vsub : vec_scope.
Infix "*" := vmul : vec_scope.
Infix "*:" := vscale (at level 40) : vec_scope.

(** [np.clip(a, lo, hi)], channel by channel. *)
Definition clip (a : vec3) (lo hi : R) : vec3 :=
  vmap (fun x => Rmin (Rmax x lo) hi) a.

(** A float array cast to [np.uint8] keeps, on the values this program
    casts (all within [[0, 255]]), the integer part; [np.round] rounds a
    half to the even neighbour. *)
Definition trunc (x : R) : Z := Int_part x.

Definition round_half_even (x : R) : R :=
  let f := Int_part x in
  let d := x - IZR f in
  if ltb d (1 / 2) then IZR f
  else if ltb (1 / 2) d then IZR (f + 1)
  else if Z.even f then IZR f else IZR (f + 1).

(** The arrays of three channels that [raytrace.py] returns: of floats, or
    of bytes. *)
Inductive ndarray : Type :=
| Float64 (a : vec3)
| UInt8 (r g b : Z).

Definition astype_float (a : ndarray) : vec3 :=
  match a with
  | Float64 v => v
  | UInt8 r g b => mkvec (IZR r) (IZR g) (IZR b)
  end.

Definition astype_uint8 (a : vec3) : ndarray :=
  UInt8 (trunc (vx a)) (trunc (vy a)) (trunc (vz a)).

(** ** Exceptions and module attributes *)

Inductive exn : Type :=
| AttributeError (owner attr : string).

Inductive result (A : Type) : Type :=
| Ok (a : A)
| Raise (e : exn).
Arguments Ok {A} a.
Arguments Raise {A} e.

Definition bind {A B : Type} (m : result A) (k : A -> result B) : result B :=
  match m with
  | Ok a => k a
  | Raise e => Raise e
  end.

Notation "x <- m ;; k" := (bind m (fun x => k))
  (at level 61, m at next level, right associativity).

(** [owner.attr]: the binding of a name in a module or on an object, if the
    name is bound there. *)
Definition getattr {A : Type} (owner attr : string) (binding : option A)
  : result A :=
  match binding with
  | Some a => Ok a
  | None => Raise (AttributeError owner attr)
  end.

(** ** The scene objects read by the core

    [object.py], [material.py], [light.py] and [constants.py] are not part
    of the sources at hand: the classes are records of the attributes the
    core reads, in the order of the constructor calls of [main.py] and
    [sky.py]; the methods the core calls on them are fields or section
    variables. *)

Module constants.

(** Modelled from the spec: [constants.py] is absent; the colours are
    "byte range, 3 channels" and the presets are "[15,15,15]/255 and
    [240,240,240]/255". *)
Definition MAX_COLOR_VALUE : R := 255.
Definition RGB_CHANNELS : nat := 3.

End constants.

Module object.

(** Modelled from the spec: the material of the absent [material.py],
    read through its diffuse colour. *)
Record Material : Type := mkMaterial { diffuse : vec3 }.

(** Modelled from the spec: the sphere of the absent [object.py], "center
    (3D), radius", with the material and the shader tag that every
    primitive carries, in the order of [Sphere(...)] in [main.py]. *)
Record Sphere : Type := mkSphere {
  sphere_position : vec3;
  sphere_material : option Material;
  sphere_shader_type : option string;
  radius : R
}.

(** Modelled from the spec: the plane of the absent [object.py], "a point
    on the plane (3D), unit normal (3D)", in the order of [Plane(...)] in
    [main.py]. *)
Record Plane : Type := mkPlane {
  position : vec3;
  plane_material : option Material;
  plane_shader_type : option string;
  n : vec3
}.

(** Modelled from the spec: the triangle of the absent [object.py], which
    "derives its own plane"; the core reads it through [position] and [n]
    (it is handed to [intersect_plane]) and through its method
    [get_barycentric_coord]. *)
Record Triangle : Type := mkTriangle {
  triangle_plane : Plane;
  get_barycentric_coord : vec3 -> R * R
}.

(** Modelled from the spec: the tetrahedron of the absent [object.py],
    "decomposed into its four triangular faces on demand" by its method
    [get_triangles]. *)
Record Tetrahedron : Type := mkTetrahedron {
  tetrahedron_material : option Material;
  tetrahedron_shader_type : option string;
  get_triangles : list Triangle
}.

(** Modelled from the spec: the classes of the absent [object.py] that
    [Ray.intersect] tells apart with [isinstance], and anything else;
    [HollowSphere] "reuses the sphere solver", so it is a [Sphere] for
    [isinstance]. *)
Inductive Object : Type :=
| ObjSphere (s : Sphere)
| ObjHollowSphere (s : Sphere)
| ObjPlane (p : Plane)
| ObjTetrahedron (t : Tetrahedron)
| ObjTriangle (t : Triangle)
| ObjOther (material : option Material) (shader_type : option string).

Definition material (obj : Object) : option Material :=
  match obj with
  | ObjSphere s | ObjHollowSphere s => sphere_material s
  | ObjPlane p => plane_material p
  | ObjTetrahedron t => tetrahedron_material t
  | ObjTriangle t => plane_material (triangle_plane t)
  | ObjOther m _ => m
  end.

Definition shader_type (obj : Object) : option string :=
  match obj with
  | ObjSphere s | ObjHollowSphere s => sphere_shader_type s
  | ObjPlane p => plane_shader_type p
  | ObjTetrahedron t => tetrahedron_shader_type t
  | ObjTriangle t => plane_shader_type (triangle_plane t)
  | ObjOther _ s => s
  end.

End object.

Module light.

(** Modelled from the spec: the light of the absent [light.py], "position
    (3D), a kind tag, a cutoff half-angle and direction", in the order of
    [Light(...)] in [main.py]. *)
Record Light : Type := mkLight {
  light_position : vec3;
  light_type : string;
  angle : R;
  light_direction : vec3
}.

End light.

(** ** ray.py *)

Module ray.
Import object.

Record Ray : Type := mkRay {
  pr : vec3;   (* origin point of the ray *)
  nr : vec3    (* director vector of the ray *)
}.

Definition at_ (self : Ray) (t : R) : vec3 := (pr self + t *: nr self)%V.

Definition intersect_plane (self : Ray) (plane : Plane) : R :=
  let dot_normals := dot (nr self) (n plane) in
  if eqb dot_normals 0 then
    if eqb (dot (position plane - pr self)%V (n plane)) 0 then 0 else -1
  else
    let t := dot (position plane - pr self)%V (n plane) / dot_normals in
    if ltb t 0 then -1 else t.

Definition intersect_sphere (self : Ray) (sphere : Sphere) : R :=
  let pc := sphere_position sphere in
  let dif := (pr self - pc)%V in
  let b := dot (nr self) dif in
  let c := dot dif dif - radius sphere ^ 2 in
  let discriminant := b ^ 2 - c in
  if ltb 0 b || ltb discriminant 0 then -1
  else -1 * b - sqrt discriminant.

Definition intersect_triangle (self : Ray) (triangle : Triangle) : R :=
  let ray_t := intersect_plane self (triangle_plane triangle) in
  let p_in_plane := at_ self ray_t in
  let '(s, t) := get_barycentric_coord triangle p_in_plane in
  if negb (leb 0 s && leb s 1) || negb (leb 0 t && leb t 1)
     || negb (leb 0 (s + t) && leb (s + t) 1)
  then -1
  else ray_t.

Definition intersect_tetrahedron (self : Ray) (tetrahedron : Tetrahedron) : R :=
  let triangles := get_triangles tetrahedron in
  let min_t :=
    fold_left
      (fun min_t tr =>
         let t := intersect_triangle self tr in
         if ltb 0 t && lt_ext t min_t then Fin t else min_t)
      triangles Inf in
  match min_t with
  | Inf => -1
  | Fin t => t
  end.

Definition intersect (self : Ray) (obj : Object) : R :=
  match obj with
  | ObjSphere s | ObjHollowSphere s => intersect_sphere self s
  | ObjPlane p => intersect_plane self p
  | ObjTetrahedron t => intersect_tetrahedron self t
  | ObjTriangle t => intersect_triangle self t
  | ObjOther _ _ => -1
  end.

End ray.

(** ** utils.py *)

Module utils.

Definition normalize (arr : vec3) : vec3 :=
  let norm := norm arr in
  if eqb norm 0 then arr else vdivs arr norm.

(** [utils.py] binds [normalize], [humanize_time] and [degree2radians] and
    nothing else: the name [distance], which [sky.py] looks up, is unbound. *)
Definition distance : option (vec3 -> vec3 -> R) := None.

End utils.

(** ** shaders.py *)

Module shaders.

Definition TYPE_DIFFUSE_LIGHT : string := "diffuse_light".
Definition TYPE_DIFFUSE_COLORS : string := "diffuse_colors".
Definition TYPE_DIFF_SPECULAR : string := "diffuse_with_specular".
Definition TYPE_DIFF_SPEC_BORDER : string := "diffuse_specular_border".
Definition COLOR_FOR_LIGHT : vec3 := mkvec 255 255 255.
Definition COLOR_FOR_BORDER : vec3 := mkvec 185 185 185.
Definition DEFAULT_KS : R := 8 / 10.
Definition DEFAULT_THICKNESS : R := 7 / 10.

Definition diffuse_light (n l : vec3) : R :=
  let diffuse_coef := dot n l in
  Rmax 0 diffuse_coef.

Definition diffuse_colors (n l dark light : vec3) : vec3 :=
  let diffuse_coef := dot n l in
  let t := Rmax 0 diffuse_coef in
  (t *: light + (1 - t) *: dark)%V.

Definition diffuse_with_specular (n l eye dark light : vec3) (ks : R) : vec3 :=
  let n_dot_l := dot n l in
  let t := Rmax 0 n_dot_l in
  let color := (t *: light + (1 - t) *: dark)%V in
  let r := (-1 *: l + (2 * n_dot_l) *: n)%V in
  let s := dot eye r in
  let s := Rmax 0 s in
  let step_min := 73 / 100 in
  let step_max := 1 in
  let s := (s - step_min) / (step_max - step_min) in
  let s := if ltb s 0 then 0 else if ltb 1 s then 1 else s in
  let s := -2 * s ^ 3 + 3 * s ^ 2 in
  ((1 - s * ks) *: color + (s * ks) *: COLOR_FOR_LIGHT)%V.

Definition diffuse_specular_border
  (n l eye dark light : vec3) (ks thickness : R) : vec3 :=
  let b := Rmax 0 (1 - dot eye n) in
  let step_min := thickness in
  let step_max := 1 in
  let b := (b - step_min) / (step_max - step_min) in
  let b := if ltb b 0 then 0 else if ltb 1 b then 1 else b in
  let color := diffuse_with_specular n l eye dark light ks in
  ((1 - b) *: color + b *: COLOR_FOR_BORDER)%V.

(** [shaders.py] binds the four tags, the two colours, the two defaults and
    the four shaders above and nothing else: the name [hard_shadow], which
    [raytrace.py] looks up, is unbound. *)
Definition hard_shadow
  : option (vec3 -> list object.Object -> vec3 -> R -> vec3) := None.

End shaders.

(** ** raytrace.py *)

Module raytrace.
Import constants object light ray.

Definition DARK_VALUE : vec3 := vdivs (mkvec 15 15 15) MAX_COLOR_VALUE.
Definition LIGHT_VALUE : vec3 := vdivs (mkvec 240 240 240) MAX_COLOR_VALUE.

Section Collaborators.

(** Methods of the absent [light.py] and [object.py]. *)
Variable get_l : Light -> vec3 -> vec3.
Variable get_dist : Light -> vec3 -> R.
Variable normal_at : Object -> vec3 -> option vec3.
(** [==] on objects, as [list.remove] applies it. *)
Variable obj_eqb : Object -> Object -> bool.
(** The binding of [hard_shadow] in the module [shaders]. *)
Variable shaders_hard_shadow
  : option (vec3 -> list Object -> vec3 -> R -> vec3).
(** With no light, [final_color /= len(lights)] divides a float array by
    zero: numpy warns and stores NaN, which [np.clip] keeps; the byte that
    the cast of NaN to [np.uint8] gives is left to the platform. *)
Variable nan_to_uint8 : Z.

(** [final /= len(lights); final = np.clip(final, 0, MAX_COLOR_VALUE);
    return final.astype(np.uint8)], the tail shared by [compute_color] and
    [compute_shadow]. *)
Definition mean_clip_uint8 (final : vec3) (len_lights : nat) : ndarray :=
  match len_lights with
  | O => UInt8 nan_to_uint8 nan_to_uint8 nan_to_uint8
  | S _ => astype_uint8 (clip (vdivs final (INR len_lights)) 0 MAX_COLOR_VALUE)
  end.

(** The loop of [compute_color] from the light [lights] on, [final_color]
    being the sum so far and [len_lights] the length of the whole list. *)
Fixpoint compute_color_loop (ph eye : vec3) (obj : Object) (len_lights : nat)
  (lights : list Light) (final_color : vec3) : result ndarray :=
  match lights with
  | [] => Ok (mean_clip_uint8 final_color len_lights)
  | light :: lights' =>
      let l := get_l light ph in
      match normal_at obj ph with
      | None => Ok (Float64 zeros)
      | Some nh =>
          mtl <- getattr "NoneType" "diffuse" (material obj) ;;
          let dark := (DARK_VALUE * diffuse mtl)%V in
          let light := (LIGHT_VALUE * diffuse mtl)%V in
          let tag := shader_type obj in
          let tagged (ty : string) :=
            match tag with Some s => String.eqb s ty | None => false end in
          let color :=
            if tagged shaders.TYPE_DIFFUSE_LIGHT then
              vfill (shaders.diffuse_light nh l)
            else if tagged shaders.TYPE_DIFFUSE_COLORS then
              shaders.diffuse_colors nh l dark light
            else if tagged shaders.TYPE_DIFF_SPECULAR then
              shaders.diffuse_with_specular nh l eye dark light
                shaders.DEFAULT_KS
            else if tagged shaders.TYPE_DIFF_SPEC_BORDER then
              shaders.diffuse_specular_border nh l eye dark light
                shaders.DEFAULT_KS shaders.DEFAULT_THICKNESS
            else zeros in
          compute_color_loop ph eye obj len_lights lights'
            (final_color + color)%V
      end
  end.

Definition compute_color (ph eye : vec3) (obj : Object) (lights : list Light)
  : result ndarray :=
  compute_color_loop ph eye obj (List.length lights) lights zeros.

Fixpoint compute_shadow_loop (ph : vec3) (objects : list Object)
  (len_lights : nat) (lights : list Light) (final_shadow : vec3)
  : result ndarray :=
  match lights with
  | [] => Ok (mean_clip_uint8 final_shadow len_lights)
  | light :: lights' =>
      let l := get_l light ph in
      let dist_l := get_dist light ph in
      hard_shadow <- getattr "shaders" "hard_shadow" shaders_hard_shadow ;;
      let shadow := hard_shadow ph objects l dist_l in
      compute_shadow_loop ph objects len_lights lights'
        (final_shadow + shadow)%V
  end.

Definition compute_shadow (ph : vec3) (objects : list Object)
  (lights : list Light) : result ndarray :=
  compute_shadow_loop ph objects (List.length lights) lights zeros.

(** [list.remove]: the first element equal to [x] is dropped. *)
Fixpoint remove (x : Object) (l : list Object) : list Object :=
  match l with
  | [] => []
  | y :: l' => if obj_eqb y x then l' else y :: remove x l'
  end.

(** One turn of the loop that looks for the closest hit: the state is the
    pair of [tmin] and [obj_h]. *)
Definition closer (ray : Ray) (state : ext * option Object) (obj : Object)
  : ext * option Object :=
  let '(tmin, obj_h) := state in
  let t := intersect ray obj in
  if ltb 0 t && lt_ext t tmin then (Fin t, Some obj) else (tmin, obj_h).

Definition closest (ray : Ray) (objects : list Object) : ext * option Object :=
  fold_left (closer ray) objects (Inf, None).

Definition raytrace (ray : Ray) (camera_pos : vec3) (objects : list Object)
  (lights : list Light) : result ndarray :=
  match closest ray objects with
  | (Fin tmin, Some obj_h) =>
      let ph := at_ ray tmin in
      let eye := utils.normalize (camera_pos - ph)%V in
      color <- compute_color ph eye obj_h lights ;;
      let objects_to_check := remove obj_h objects in
      shadow <- compute_shadow ph objects_to_check lights ;;
      let final_color :=
        vmap round_half_even
          (astype_float color
           * vdivs (astype_float shadow) MAX_COLOR_VALUE)%V in
      Ok (astype_uint8 final_color)
  | (Inf, Some _) =>
      (* never reached: [obj_h] is only set together with a finite [tmin],
         see [closest_is_closest_of] *)
      Ok (UInt8 0 0 0)
  | (_, None) => Ok (UInt8 0 0 0)
  end.

End Collaborators.

End raytrace.

(** ** sky.py

    The atmospheric functions draw from numpy's global generator: the
    values it will return next are a stream, consumed from the front and
    threaded through every call. *)

Definition rng : Type := nat -> R.

Definition M (A : Type) : Type := rng -> result (A * rng).

Definition ret {A : Type} (a : A) : M A := fun g => Ok (a, g).

Definition mbind {A B : Type} (m : M A) (k : A -> M B) : M B :=
  fun g =>
    match m g with
    | Ok (a, g') => k a g'
    | Raise e => Raise e
    end.

Definition lift {A : Type} (r : result A) : M A :=
  fun g =>
    match r with
    | Ok a => Ok (a, g)
    | Raise e => Raise e
    end.

Notation "x <~ m ;; k" := (mbind m (fun x => k))
  (at level 61, m at next level, right associativity).

(** [np.random.random_sample(size)]. *)
Definition random_sample (size : nat) : M (list R) :=
  fun g => Ok (map g (seq 0 size), fun i => g (size + i)%nat).

(** [for i in range(stop)] over a loop state, [i] running through
    [indices]. *)
Fixpoint for_range {S : Type} (indices : list nat) (body : nat -> S -> M S)
  (s : S) : M S :=
  match indices with
  | [] => ret s
  | i :: indices' => s' <~ body i s ;; for_range indices' body s'
  end.

Definition range (stop : nat) : list nat := seq 0 stop.

Module sky.
Import object ray.

Definition EARTH_RADIUS : R := 6378 * 1000.
Definition DEFAULT_CENTER : vec3 := mkvec 0 (- EARTH_RADIUS) 0.
Definition DEFAULT_ATMOSPHERE_HEIGHT : R := EARTH_RADIUS * (25 / 1000).
Definition DEFAULT_SUN_DIRECTION : vec3 :=
  utils.normalize (mkvec 0 (15 / 100) 1).
Definition DEFAULT_AVG_DENSITY_HEIGHT : R :=
  25 / 100 * DEFAULT_ATMOSPHERE_HEIGHT.
Definition IN_SCATTER_SAMPLES : nat := 10.
Definition OPTICAL_DEPTH_SAMPLES : nat := 10.
Definition COLOR_CHANNELS : nat := 3.
Definition WAVE_LENGTHS : Z * Z * Z := (650, 510, 445)%Z.
Definition SCATTERING_SCALE : Z := 1.
(** [(1 / np.power(WAVE_LENGTHS, 4)) * SCATTERING_SCALE] on an array of
    ints: the division floors. *)
Definition SCATTERING_COEFFICIENTS : vec3 :=
  let '(red, green, blue) := WAVE_LENGTHS in
  mkvec (IZR (1 / red ^ 4 * SCATTERING_SCALE))
        (IZR (1 / green ^ 4 * SCATTERING_SCALE))
        (IZR (1 / blue ^ 4 * SCATTERING_SCALE)).
Definition DENSITY_FALLOFF : R := 4.
Definition SUN_COLOR : vec3 := mkvec 1289 1395 1234.

Record SkyDome : Type := mkSkyDome {
  center : vec3;
  radius : R;
  sun_direction : vec3;
  atmosphere_height : R;
  avg_density_height : R
}.

(** The two attributes that [__init__] derives. *)
Definition planet_obj (self : SkyDome) : Object :=
  ObjSphere (mkSphere (center self) None None (radius self)).
Definition atmosphere_obj (self : SkyDome) : Object :=
  ObjHollowSphere
    (mkSphere (center self) None None (radius self + atmosphere_height self)).

Definition default_sky : SkyDome :=
  mkSkyDome DEFAULT_CENTER EARTH_RADIUS DEFAULT_SUN_DIRECTION
    DEFAULT_ATMOSPHERE_HEIGHT DEFAULT_AVG_DENSITY_HEIGHT.

(** [(3 / 4) * (1 + np.dot(v1, v2) ** 2)]: the quotient of the two int
    literals floors. *)
Definition phase_function (v1 v2 : vec3) : R :=
  IZR (3 / 4) * (1 + dot v1 v2 ^ 2).

Section Utils.

(** The binding of [distance] in the module [utils]. *)
Variable utils_distance : option (vec3 -> vec3 -> R).

Definition density_at_point (self : SkyDome) (p : vec3) : result R :=
  distance <- getattr "utils" "distance" utils_distance ;;
  let height := distance p (center self) - radius self in
  let normalized_height := height / atmosphere_height self in
  let density :=
    exp (- normalized_height * DENSITY_FALLOFF) * (1 - normalized_height) in
  Ok density.

(** The body of the loop of [optical_depth]. *)
Definition optical_depth_sample (self : SkyDome) (p direction : vec3)
  (distance : R) (num_samples : nat) (randoms : list R) (i : nat)
  (optical_depth : R) : M R :=
  let current_distance :=
    (INR i + nth i randoms 0) * (distance / INR num_samples) in
  let sample_point := (p + current_distance *: direction)%V in
  sample_density <~ lift (density_at_point self sample_point) ;;
  ret (optical_depth + sample_density * current_distance).

Definition optical_depth (self : SkyDome) (p direction : vec3) (distance : R)
  (num_samples : nat) : M R :=
  randoms <~ random_sample num_samples ;;
  for_range (range num_samples)
    (optical_depth_sample self p direction distance num_samples randoms) 0.

Definition out_scattering (self : SkyDome) (p direction : vec3) (distance : R)
  (num_samples : nat) : M vec3 :=
  optical_depth <~ optical_depth self p direction distance num_samples ;;
  ret ((4 * PI * optical_depth) *: SCATTERING_COEFFICIENTS)%V.

(** [0 < t_to_planet < t_to_atmosphere] for the ray from [sample_point]
    towards the sun. *)
Definition in_shadow (self : SkyDome) (sample_point : vec3) : bool :=
  let sun_ray := mkRay sample_point (sun_direction self) in
  let t_to_atmosphere := intersect sun_ray (atmosphere_obj self) in
  let t_to_planet := intersect sun_ray (planet_obj self) in
  ltb 0 t_to_planet && ltb t_to_planet t_to_atmosphere.

(** The body of the loop of [in_scattering]. *)
Definition in_scattering_sample (self : SkyDome) (r : Ray)
  (view_samples : nat) (randoms : list R) (dist_to_atmosphere : R) (i : nat)
  (transmittance : vec3) : M vec3 :=
  let distance :=
    dist_to_atmosphere / INR view_samples * (INR i + nth i randoms 0) in
  let sample_point := at_ r distance in
  let sun_ray := mkRay sample_point (sun_direction self) in
  let t_to_atmosphere := intersect sun_ray (atmosphere_obj self) in
  if in_shadow self sample_point then ret transmittance
  else
    out_sun <~ out_scattering self (pr sun_ray) (nr sun_ray) t_to_atmosphere
                 OPTICAL_DEPTH_SAMPLES ;;
    out_view <~ out_scattering self sample_point (vneg (nr r)) distance
                  OPTICAL_DEPTH_SAMPLES ;;
    current_density <~ lift (density_at_point self sample_point) ;;
    ret (transmittance
         + (current_density * distance
            * phase_function (nr sun_ray) (vneg (nr r)))
           *: vmap exp (vneg (out_sun + out_view)))%V.

Definition in_scattering (self : SkyDome) (r : Ray) (view_samples : nat)
  : M vec3 :=
  randoms <~ random_sample view_samples ;;
  let dist_to_atmosphere := intersect r (atmosphere_obj self) in
  transmittance <~
    for_range (range view_samples)
      (in_scattering_sample self r view_samples randoms dist_to_atmosphere)
      zeros ;;
  let light := (SUN_COLOR * SCATTERING_COEFFICIENTS * transmittance)%V in
  ret light.

(** The body of the loop of [light_at_ray]. *)
Definition light_at_ray_sample (self : SkyDome) (r : Ray) (view_samples : nat)
  (randoms : list R) (dist_to_atmosphere : R) (i : nat) (light : vec3)
  : M vec3 :=
  let distance :=
    dist_to_atmosphere / INR view_samples * (INR i + nth i randoms 0) in
  let sample_point := at_ r distance in
  let sun_ray := mkRay sample_point (sun_direction self) in
  let t_to_atmosphere := intersect sun_ray (atmosphere_obj self) in
  if in_shadow self sample_point then ret light
  else
    sun_ray_optical_depth <~
      optical_depth self (pr sun_ray) (nr sun_ray) t_to_atmosphere
        OPTICAL_DEPTH_SAMPLES ;;
    view_ray_optical_depth <~
      optical_depth self sample_point (vneg (nr r)) distance
        OPTICAL_DEPTH_SAMPLES ;;
    let transmittance :=
      vmap exp
        ((- (sun_ray_optical_depth + view_ray_optical_depth))
         *: SCATTERING_COEFFICIENTS)%V in
    let segment_size :=
      dist_to_atmosphere / INR view_samples * nth i randoms 0 in
    sample_density <~ lift (density_at_point self sample_point) ;;
    ret (light + (sample_density * segment_size) *: transmittance)%V.

Definition light_at_ray (self : SkyDome) (r : Ray) (view_samples : nat)
  : M vec3 :=
  let light := zeros in
  randoms <~ random_sample view_samples ;;
  let dist_to_atmosphere := intersect r (atmosphere_obj self) in
  light <~
    for_range (range view_samples)
      (light_at_ray_sample self r view_samples randoms dist_to_atmosphere)
      light ;;
  let light := (light * SCATTERING_COEFFICIENTS)%V in
  let light := vdivs light (radius self) in
  let light := clip light 0 1 in
  ret light.

End Utils.

End sky.

(** * The vocabulary of the properties *)

Import object ray raytrace sky.

(** The point [p] lies on the surface of [sphere]. *)
Definition on_sphere (sphere : Sphere) (p : vec3) : Prop :=
  dot (p - sphere_position sphere)%V (p - sphere_position sphere)%V
  = object.radius sphere ^ 2.

(** [s], [t] and [s + t] all lie in [[0, 1]]. *)
Definition in_unit_triangle (st : R * R) : Prop :=
  let '(s, t) := st in
  0 <= s <= 1 /\ 0 <= t <= 1 /\ 0 <= s + t <= 1.

(** What [tmin] and [obj_h] hold once the objects [seen] went through the
    loop of [raytrace]: nothing, when none of them is hit at a strictly
    positive parameter; otherwise the first of the objects whose parameter
    is the least strictly positive one. *)
Definition closest_of (ray : Ray) (seen : list Object)
  (state : ext * option Object) : Prop :=
  match state with
  | (Inf, None) => forall o, In o seen -> ~ 0 < intersect ray o
  | (Fin tmin, Some obj_h) =>
      0 < tmin /\ intersect ray obj_h = tmin /\
      (forall o, In o seen -> 0 < intersect ray o -> tmin <= intersect ray o) /\
      exists before after,
        seen = before ++ obj_h :: after /\
        forall o, In o before -> 0 < intersect ray o -> tmin < intersect ray o
  | _ => False
  end.

(** The height of [p] above the planet, as a fraction of the height of the
    atmosphere, for a given reading of [distance]. *)
Definition normalized_height_at (distance_fn : vec3 -> vec3 -> R)
  (self : SkyDome) (p : vec3) : R :=
  (distance_fn p (center self) - radius self) / atmosphere_height self.

(** The Euclidean distance, what the name [distance] stands for. *)
Definition euclidean (p q : vec3) : R := norm (p - q)%V.

(** The generator after [k] draws. *)
Definition shift (k : nat) (g : rng) : rng := fun j => g (k + j)%nat.

(** The jittered distance of sample [j] of [n] along a segment of the given
    length, [g j] being the draw of the sample. *)
Definition jittered (g : rng) (length : R) (n j : nat) : R :=
  (INR j + g j) * (length / INR n).

(** The density at [p] for a given reading of [distance]. *)
Definition density_value (distance_fn : vec3 -> vec3 -> R) (self : SkyDome)
  (p : vec3) : R :=
  exp (- normalized_height_at distance_fn self p * DENSITY_FALLOFF)
  * (1 - normalized_height_at distance_fn self p).

(** The quadrature of the optical depth: sample [j] lies at its jittered
    distance from [p] and its density is weighted by that distance. *)
Definition optical_depth_sum (distance_fn : vec3 -> vec3 -> R)
  (self : SkyDome) (p direction : vec3) (distance : R) (n : nat) (g : rng)
  : R :=
  fold_left
    (fun acc j =>
       acc
       + density_value distance_fn self
           (p + jittered g distance n j *: direction)%V
         * jittered g distance n j)
    (seq 0 n) 0.

(** The sum over the view samples of a ray: sample [i] lies at its jittered
    distance along the ray, its two optical depths are taken with the ten
    draws each that follow the draws of the earlier samples, and its
    density times the transmittance is weighted by [weight i]. *)
Definition light_at_ray_sum (distance_fn : vec3 -> vec3 -> R)
  (self : SkyDome) (r : Ray) (view_samples : nat) (g : rng)
  (weight : nat -> R) : vec3 :=
  let length := intersect r (atmosphere_obj self) in
  fold_left
    (fun light i =>
       let sample_point := at_ r (jittered g length view_samples i) in
       let sun_ray := mkRay sample_point (sun_direction self) in
       let sun_depth :=
         optical_depth_sum distance_fn self sample_point (sun_direction self)
           (intersect sun_ray (atmosphere_obj self)) OPTICAL_DEPTH_SAMPLES
           (shift (view_samples + 20 * i) g) in
       let view_depth :=
         optical_depth_sum distance_fn self sample_point (vneg (nr r))
           (jittered g length view_samples i) OPTICAL_DEPTH_SAMPLES
           (shift (view_samples + 20 * i + 10) g) in
       (light
        + (density_value distance_fn self sample_point * weight i)
          *: vmap exp
               ((- (sun_depth + view_depth)) *: SCATTERING_COEFFICIENTS))%V)
    (seq 0 view_samples) zeros.

(** ** Scenes *)

(** The camera ray of [main.py], the same ray turned around, and the sphere
    and the plane of its scene. *)
Definition ray_along_z : Ray := mkRay (mkvec 0 0 0) (mkvec 0 0 1).
Definition ray_away : Ray := mkRay (mkvec 0 0 0) (mkvec 0 0 (-1)).
Definition scene_sphere (r : R) : Sphere :=
  mkSphere (mkvec 0 0 100) None None r.
Definition scene_plane : Plane :=
  mkPlane (mkvec 0 (-25) 0) None None (mkvec 0 1 0).
Definition scene_objects : list Object := [ObjSphere (scene_sphere 25)].
Definition spot_light : light.Light :=
  light.mkLight (mkvec 0 50 50) "spot" (PI / 6) (mkvec 0 0 1).

(** A sphere of radius 2 around the origin of [ray_along_z]. *)
Definition sphere_around_origin : Sphere :=
  mkSphere (mkvec 0 0 0) None None 2.

(** Stand-ins for the methods of the absent [light.py] and [object.py]:
    the unit vector and the distance from a point to the light, a normal
    that is undefined everywhere, and objects that are all distinct. *)
Definition light_get_l (l : light.Light) (ph : vec3) : vec3 :=
  utils.normalize (light.light_position l - ph)%V.
Definition light_get_dist (l : light.Light) (ph : vec3) : R :=
  norm (light.light_position l - ph)%V.
Definition undefined_normal (obj : Object) (ph : vec3) : option vec3 := None.
Definition never_equal (a b : Object) : bool := false.

(** The triangle with corners [(0,0,0)], [(1,0,0)] and [(0,1,0)] in the
    plane [z = 0], where the barycentric coordinates of a point are its
    first two coordinates, and the ray that falls on it at [(x, y)]. *)
Definition corner_triangle : Triangle :=
  mkTriangle (mkPlane (mkvec 0 0 0) None None (mkvec 0 0 1))
    (fun p => (vx p, vy p)).
Definition ray_down_at (x y : R) : Ray := mkRay (mkvec x y 5) (mkvec 0 0 (-1)).

(** A planet of radius 1 under an atmosphere of height 1, the sun at the
    zenith, a ray that enters the atmosphere from above after 2 units, and
    the generators that always draw 0 and always draw 1/2. *)
Definition unit_sky : SkyDome :=
  mkSkyDome (mkvec 0 0 0) 1 (mkvec 0 0 1) 1 (1 / 4).
Definition ray_inward : Ray := mkRay (mkvec 0 0 (-4)) (mkvec 0 0 1).
Definition no_jitter : rng := fun _ => 0.

(** * Properties *)

(** ** Comparisons and evaluation *)

Lemma ltb_spec (x y : R) : ltb x y = true <-> x < y.
Proof. unfold ltb; destruct (Rlt_dec x y); split; intros; try easy. Qed.

Lemma ltb_false (x y : R) : ltb x y = false <-> y <= x.
Proof.
  unfold ltb; destruct (Rlt_dec x y); split; intros; try easy; lra.
Qed.

Lemma leb_spec (x y : R) : leb x y = true <-> x <= y.
Proof. unfold leb; destruct (Rle_dec x y); split; intros; try easy. Qed.

Lemma leb_false (x y : R) : leb x y = false <-> y < x.
Proof.
  unfold leb; destruct (Rle_dec x y); split; intros; try easy; lra.
Qed.

Lemma eqb_spec (x y : R) : eqb x y = true <-> x = y.
Proof. unfold eqb; destruct (Req_dec_T x y); split; intros; try easy. Qed.

Lemma eqb_false (x y : R) : eqb x y = false <-> x <> y.
Proof. unfold eqb; destruct (Req_dec_T x y); split; intros; try easy. Qed.

Lemma sqrt_of_square (x y : R) : 0 <= y -> x = y * y -> sqrt x = y.
Proof. intros Hy ->. now apply sqrt_square. Qed.

(** Arrays down to their coordinates. *)
Ltac vec_simpl :=
  cbv [at_ on_sphere dot vadd vsub vmul vscale vneg vdivs vfill zeros vzip vmap
       vx vy vz pr nr sphere_position object.radius position n] in *.

(** Settle the first comparison of the goal that linear arithmetic decides. *)
Ltac decide_cmp :=
  let H := fresh "Hcmp" in
  match goal with
  | |- context [ltb ?x ?y] =>
      first [ assert (H : ltb x y = true) by (apply ltb_spec; lra)
            | assert (H : ltb x y = false) by (apply ltb_false; lra) ];
      rewrite H; clear H
  | |- context [eqb ?x ?y] =>
      first [ assert (H : eqb x y = true) by (apply eqb_spec; lra)
            | assert (H : eqb x y = false) by (apply eqb_false; lra) ];
      rewrite H; clear H
  end.

(** Replace the square root of the goal by [y], its argument being [y * y]. *)
Ltac sqrt_is y :=
  match goal with
  | |- context [sqrt ?d] => rewrite (sqrt_of_square d y) by lra
  end.

(** ** ray.py: the plane *)

(** C7: with [d = dot(rayDir, planeNormal)], a parallel ray gives [0] when
    its origin lies in the plane and [-1] otherwise; a ray that is not
    parallel gives [t = dot(planePoint - rayOrigin, planeNormal) / d] when
    [t >= 0] and [-1] when [t < 0]. *)
Theorem intersect_plane_cases (self : Ray) (plane : Plane) :
  let d := dot (nr self) (n plane) in
  let e := dot (position plane - pr self)%V (n plane) in
  (d = 0 -> e = 0 -> intersect_plane self plane = 0) /\
  (d = 0 -> e <> 0 -> intersect_plane self plane = -1) /\
  (d <> 0 -> 0 <= e / d -> intersect_plane self plane = e / d) /\
  (d <> 0 -> e / d < 0 -> intersect_plane self plane = -1).
Proof.
  intros d e; unfold intersect_plane; fold d; fold e.
  repeat split; intros Hd He.
  - apply eqb_spec in Hd, He. now rewrite Hd, He.
  - apply eqb_spec in Hd; apply eqb_false in He. now rewrite Hd, He.
  - apply eqb_false in Hd; apply ltb_false in He. now rewrite Hd, He.
  - apply eqb_false in Hd; apply ltb_spec in He. now rewrite Hd, He.
Qed.

(** The plane of [main.py] lies 25 below the camera: a ray straight down
    meets it at [t = 25], a ray straight up is rejected. *)
Theorem intersect_plane_examples :
  intersect_plane (mkRay (mkvec 0 0 0) (mkvec 0 (-1) 0)) scene_plane = 25 /\
  intersect_plane (mkRay (mkvec 0 0 0) (mkvec 0 1 0)) scene_plane = -1.
Proof.
  split; unfold intersect_plane, scene_plane; vec_simpl.
  - match goal with |- context [eqb ?d 0] => replace d with (-1) by lra end.
    decide_cmp. decide_cmp. lra.
  - match goal with |- context [eqb ?d 0] => replace d with 1 by lra end.
    decide_cmp. decide_cmp. reflexivity.
Qed.

(** ** ray.py: the sphere *)

(** Along a ray of unit direction the squared distance to the centre is the
    reduced quadratic of [intersect_sphere]. *)
Lemma on_sphere_quadratic (self : Ray) (sphere : Sphere) (t : R) :
  dot (nr self) (nr self) = 1 ->
  let dif := (pr self - sphere_position sphere)%V in
  let b := dot (nr self) dif in
  let c := dot dif dif - object.radius sphere ^ 2 in
  on_sphere sphere (at_ self t) <-> (t + b) ^ 2 = b ^ 2 - c.
Proof.
  destruct self as [[ox oy oz] [dx dy dz]], sphere as [[cx cy cz] m s r].
  vec_simpl; intros Hu; split; intros H; nra.
Qed.

(** C1 (amended): [intersect_sphere] computes [b = dot(D, O-C)] and
    [c = |O-C|^2 - r^2]; it returns [-1] when [b > 0] or [b^2 - c < 0] and
    the near root [-b - sqrt(b^2 - c)] otherwise.  When the ray origin lies
    strictly outside the sphere ([c > 0]) the value is [-1] exactly in the
    first case and strictly positive in the second; if moreover the
    direction is a unit vector, a value other than [-1] is the smallest
    parameter at which the ray meets the sphere. *)
Theorem intersect_sphere_contract (self : Ray) (sphere : Sphere) :
  let dif := (pr self - sphere_position sphere)%V in
  let b := dot (nr self) dif in
  let c := dot dif dif - object.radius sphere ^ 2 in
  let r := intersect_sphere self sphere in
  (b > 0 \/ b ^ 2 - c < 0 -> r = -1) /\
  (~ (b > 0 \/ b ^ 2 - c < 0) -> r = - b - sqrt (b ^ 2 - c)) /\
  (0 < c -> (r = -1 <-> b > 0 \/ b ^ 2 - c < 0) /\ (r = -1 \/ 0 < r)) /\
  (0 < c -> dot (nr self) (nr self) = 1 -> r <> -1 ->
   on_sphere sphere (at_ self r) /\
   forall t, on_sphere sphere (at_ self t) -> r <= t).
Proof.
  intros dif b c r.
  assert (Hsent : b > 0 \/ b ^ 2 - c < 0 -> r = -1).
  { intros H; unfold r, intersect_sphere; fold dif b c.
    destruct H as [H | H]; apply ltb_spec in H; rewrite H;
      [ reflexivity | now rewrite orb_true_r ]. }
  assert (Hroot : ~ (b > 0 \/ b ^ 2 - c < 0) -> r = - b - sqrt (b ^ 2 - c)).
  { intros H; unfold r, intersect_sphere; fold dif b c.
    assert (Hb : ltb 0 b = false) by (apply ltb_false; lra).
    assert (Hd : ltb (b ^ 2 - c) 0 = false) by (apply ltb_false; lra).
    rewrite Hb, Hd; simpl; lra. }
  assert (Hpos : 0 < c -> ~ (b > 0 \/ b ^ 2 - c < 0) -> 0 < r).
  { intros Hc H; rewrite (Hroot H).
    assert (Hlt : sqrt (b ^ 2 - c) < sqrt ((- b) * (- b))).
    { apply sqrt_lt_1_alt; nra. }
    rewrite sqrt_square in Hlt by lra. lra. }
  repeat split; auto.
  - intros Hr. destruct (Rlt_dec 0 b); [ now left | ].
    destruct (Rlt_dec (b ^ 2 - c) 0); [ now right | ].
    assert (0 < r) by (apply Hpos; [ assumption | lra ]). lra.
  - destruct (Rlt_dec 0 b); [ left; apply Hsent; now left | ].
    destruct (Rlt_dec (b ^ 2 - c) 0); [ left; apply Hsent; now right | ].
    right; apply Hpos; [ assumption | lra ].
  - apply on_sphere_quadratic; [ assumption | ]. fold dif b c.
    assert (Hn : ~ (b > 0 \/ b ^ 2 - c < 0)) by (intros Hn; auto).
    rewrite (Hroot Hn).
    replace ((- b - sqrt (b ^ 2 - c) + b) ^ 2)
      with (sqrt (b ^ 2 - c) * sqrt (b ^ 2 - c)) by ring.
    apply sqrt_sqrt; lra.
  - intros t Ht. apply on_sphere_quadratic in Ht; [ | assumption ].
    fold dif b c in Ht.
    assert (Hn : ~ (b > 0 \/ b ^ 2 - c < 0)) by (intros Hn; auto).
    rewrite (Hroot Hn).
    assert (Hs0 := sqrt_pos (b ^ 2 - c)).
    assert (Hd : 0 <= b ^ 2 - c) by lra.
    assert (Hs := sqrt_sqrt (b ^ 2 - c) Hd). nra.
Qed.

(** C1 (as stated) fails: from inside the sphere the near root is negative
    and it is returned as it is, here [-2], which is neither the sentinel
    nor a strictly positive distance. *)
Lemma intersect_sphere_inside_negative :
  let t := intersect_sphere ray_along_z sphere_around_origin in
  t = -2 /\ ~ (t = -1 \/ 0 < t).
Proof.
  assert (H : intersect_sphere ray_along_z sphere_around_origin = -2).
  { unfold intersect_sphere, ray_along_z, sphere_around_origin; vec_simpl.
    repeat decide_cmp. cbn [orb]. sqrt_is 2. lra. }
  cbv zeta; rewrite H; split; [ reflexivity | lra ].
Qed.

Lemma intersect_sphere_contract_witness :
  let r := intersect_sphere ray_along_z (scene_sphere 25) in
  r <> -1 /\ on_sphere (scene_sphere 25) (at_ ray_along_z r) /\
  forall t, on_sphere (scene_sphere 25) (at_ ray_along_z t) -> r <= t.
Proof.
  pose proof (intersect_sphere_contract ray_along_z (scene_sphere 25)) as H.
  cbv zeta in *. destruct H as (_ & _ & Hpos & Hmin).
  assert (Hc : 0 < dot (pr ray_along_z - sphere_position (scene_sphere 25))%V
                       (pr ray_along_z - sphere_position (scene_sphere 25))%V
                   - object.radius (scene_sphere 25) ^ 2).
  { unfold ray_along_z, scene_sphere; vec_simpl; lra. }
  assert (Hu : dot (nr ray_along_z) (nr ray_along_z) = 1).
  { unfold ray_along_z; vec_simpl; lra. }
  assert (Hr : intersect_sphere ray_along_z (scene_sphere 25) <> -1).
  { destruct (Hpos Hc) as [Hiff _]. intros Hr; apply Hiff in Hr.
    revert Hr; unfold ray_along_z, scene_sphere; vec_simpl; lra. }
  split; [ exact Hr | exact (Hmin Hc Hu Hr) ].
Defined.

Lemma intersect_sphere_scene_25 :
  intersect_sphere ray_along_z (scene_sphere 25) = 75.
Proof.
  unfold intersect_sphere, ray_along_z, scene_sphere; vec_simpl.
  repeat decide_cmp. cbn [orb]. sqrt_is 25. lra.
Qed.

Lemma intersect_sphere_scene_10 :
  intersect_sphere ray_along_z (scene_sphere 10) = 90.
Proof.
  unfold intersect_sphere, ray_along_z, scene_sphere; vec_simpl.
  repeat decide_cmp. cbn [orb]. sqrt_is 10. lra.
Qed.

Lemma intersect_sphere_away (r : R) :
  intersect_sphere ray_away (scene_sphere r) = -1.
Proof.
  unfold intersect_sphere, ray_away, scene_sphere; vec_simpl.
  now decide_cmp.
Qed.

(** C10: from the origin along [(0,0,1)] the sphere centred at [(0,0,100)]
    is met at [t = 75] for radius 25 and at [t = 90] for radius 10; along
    [(0,0,-1)] either sphere gives [-1]. *)
Theorem intersect_sphere_examples :
  intersect_sphere ray_along_z (scene_sphere 25) = 75 /\
  intersect_sphere ray_along_z (scene_sphere 10) = 90 /\
  intersect_sphere ray_away (scene_sphere 25) = -1 /\
  intersect_sphere ray_away (scene_sphere 10) = -1.
Proof.
  repeat split.
  - exact intersect_sphere_scene_25.
  - exact intersect_sphere_scene_10.
  - exact (intersect_sphere_away 25).
  - exact (intersect_sphere_away 10).
Qed.

(** Along one ray the near root on the larger of two concentric spheres is
    not beyond a strictly positive near root on the smaller one. *)
Lemma intersect_sphere_concentric (self : Ray) (c : vec3)
  (m1 m2 : option Material) (s1 s2 : option string) (r1 r2 : R) :
  r1 ^ 2 <= r2 ^ 2 ->
  0 < intersect_sphere self (mkSphere c m1 s1 r1) ->
  intersect_sphere self (mkSphere c m2 s2 r2)
  <= intersect_sphere self (mkSphere c m1 s1 r1).
Proof.
  unfold intersect_sphere; cbv [sphere_position object.radius].
  set (dif := (pr self - c)%V). set (b := dot (nr self) dif).
  intros Hr.
  destruct (ltb 0 b) eqn:Hb; cbn [orb]; [ intros; lra | ].
  destruct (ltb (b ^ 2 - (dot dif dif - r1 ^ 2)) 0) eqn:H1; [ intros; lra | ].
  apply ltb_false in H1.
  assert (H2 : ltb (b ^ 2 - (dot dif dif - r2 ^ 2)) 0 = false)
    by (apply ltb_false; lra).
  rewrite H2. intros _.
  assert (sqrt (b ^ 2 - (dot dif dif - r1 ^ 2))
          <= sqrt (b ^ 2 - (dot dif dif - r2 ^ 2)))
    by (apply sqrt_le_1_alt; lra).
  lra.
Qed.

(** ** ray.py: the triangle and the tetrahedron *)

(** C8: the triangle intersection takes [t] from the supporting plane,
    evaluates the hit point there and asks the triangle for its barycentric
    coordinates: the plane's [t] is returned when they lie in the unit
    triangle, and [-1] for every other point, whatever the plane gave. *)
Theorem intersect_triangle_barycentric (self : Ray) (triangle : Triangle) :
  let ray_t := intersect_plane self (triangle_plane triangle) in
  let st := get_barycentric_coord triangle (at_ self ray_t) in
  (in_unit_triangle st -> intersect_triangle self triangle = ray_t) /\
  (~ in_unit_triangle st -> intersect_triangle self triangle = -1).
Proof.
  intros ray_t st; unfold intersect_triangle; fold ray_t; fold st.
  destruct st as [s t]; unfold in_unit_triangle.
  destruct (leb 0 s) eqn:Hs0; destruct (leb s 1) eqn:Hs1;
    destruct (leb 0 t) eqn:Ht0; destruct (leb t 1) eqn:Ht1;
    destruct (leb 0 (s + t)) eqn:Hst0; destruct (leb (s + t) 1) eqn:Hst1;
    simpl;
    repeat match goal with
      | H : leb _ _ = true |- _ => apply leb_spec in H
      | H : leb _ _ = false |- _ => apply leb_false in H
      end;
    split; intros H; try reflexivity; try lra;
    exfalso; apply H; lra.
Qed.

Lemma intersect_plane_corner (x y : R) :
  intersect_plane (ray_down_at x y) (triangle_plane corner_triangle) = 5.
Proof.
  unfold intersect_plane, ray_down_at, corner_triangle; vec_simpl.
  cbv [triangle_plane position n].
  match goal with |- context [eqb ?d 0] => replace d with (-1) by lra end.
  decide_cmp. decide_cmp. lra.
Qed.

Lemma intersect_triangle_barycentric_witness :
  intersect_triangle (ray_down_at (1 / 4) (1 / 4)) corner_triangle = 5 /\
  intersect_triangle (ray_down_at 1 1) corner_triangle = -1.
Proof.
  split.
  - rewrite <- (intersect_plane_corner (1 / 4) (1 / 4)).
    apply (intersect_triangle_barycentric
             (ray_down_at (1 / 4) (1 / 4)) corner_triangle).
    rewrite intersect_plane_corner.
    unfold ray_down_at, corner_triangle; vec_simpl;
      cbv [get_barycentric_coord in_unit_triangle vx vy]; lra.
  - apply (intersect_triangle_barycentric (ray_down_at 1 1) corner_triangle).
    rewrite intersect_plane_corner.
    unfold ray_down_at, corner_triangle; vec_simpl;
      cbv [get_barycentric_coord in_unit_triangle vx vy]; lra.
Defined.

(** The tetrahedron gives [-1] when no face is hit at a strictly positive
    parameter, and otherwise the least strictly positive parameter of its
    faces. *)
Theorem intersect_tetrahedron_min (self : Ray) (tetrahedron : Tetrahedron) :
  let t := intersect_tetrahedron self tetrahedron in
  (t = -1 /\
   forall tr, In tr (get_triangles tetrahedron) ->
              ~ 0 < intersect_triangle self tr) \/
  (0 < t /\
   (exists tr, In tr (get_triangles tetrahedron) /\
               intersect_triangle self tr = t) /\
   forall tr, In tr (get_triangles tetrahedron) ->
              0 < intersect_triangle self tr ->
              t <= intersect_triangle self tr).
Proof.
  unfold intersect_tetrahedron.
  set (step := fun (min_t : ext) (tr : Triangle) =>
         let t := intersect_triangle self tr in
         if ltb 0 t && lt_ext t min_t then Fin t else min_t).
  set (inv := fun (seen : list Triangle) (m : ext) =>
         match m with
         | Inf => forall tr, In tr seen -> ~ 0 < intersect_triangle self tr
         | Fin t =>
             0 < t /\
             (exists tr, In tr seen /\ intersect_triangle self tr = t) /\
             forall tr, In tr seen -> 0 < intersect_triangle self tr ->
                        t <= intersect_triangle self tr
         end).
  assert (Hstep : forall seen m tr,
             inv seen m -> inv (seen ++ [tr]) (step m tr)).
  { intros seen m tr Hm. unfold step.
    destruct (ltb 0 (intersect_triangle self tr)) eqn:H0; cbn [andb].
    - apply ltb_spec in H0. destruct m as [t | ]; cbn [lt_ext].
      + destruct Hm as (Hpos & (tr0 & Hin & Heq) & Hmin).
        destruct (ltb (intersect_triangle self tr) t) eqn:Hlt.
        * apply ltb_spec in Hlt. repeat split; auto.
          -- exists tr. split; [ apply in_or_app; right; now left | auto ].
          -- intros tr' Hin' Hpos'.
             apply in_app_or in Hin' as [Hin' | [<- | []]]; [ | lra ].
             specialize (Hmin tr' Hin' Hpos'). lra.
        * apply ltb_false in Hlt. repeat split; auto.
          -- exists tr0. split; [ apply in_or_app; now left | auto ].
          -- intros tr' Hin' Hpos'.
             apply in_app_or in Hin' as [Hin' | [<- | []]]; auto.
      + repeat split; auto.
        * exists tr. split; [ apply in_or_app; right; now left | auto ].
        * intros tr' Hin' Hpos'.
          apply in_app_or in Hin' as [Hin' | [<- | []]]; [ | lra ].
          now apply Hm in Hin'.
    - apply ltb_false in H0. destruct m as [t | ].
      + destruct Hm as (Hpos & (tr0 & Hin & Heq) & Hmin).
        repeat split; auto.
        * exists tr0. split; [ apply in_or_app; now left | auto ].
        * intros tr' Hin' Hpos'.
          apply in_app_or in Hin' as [Hin' | [<- | []]]; auto. lra.
      + intros tr' Hin' Hpos'.
        apply in_app_or in Hin' as [Hin' | [<- | []]]; [ | lra ].
        now apply Hm in Hin'. }
  assert (Hfold : forall l seen m,
             inv seen m -> inv (seen ++ l) (fold_left step l m)).
  { induction l as [ | tr l IH]; intros seen m Hm; cbn [fold_left].
    - now rewrite app_nil_r.
    - replace (seen ++ tr :: l) with ((seen ++ [tr]) ++ l)
        by (rewrite <- app_assoc; reflexivity).
      apply IH, Hstep, Hm. }
  specialize (Hfold (get_triangles tetrahedron) [] Inf).
  cbn [app] in Hfold.
  destruct (fold_left step (get_triangles tetrahedron) Inf) as [t | ].
  - right. apply Hfold. intros tr [].
  - left. split; [ reflexivity | ]. apply Hfold. intros tr [].
Qed.

(** ** utils.py *)

(** [normalize] hands a vector of norm zero back as it is. *)
Theorem normalize_zero_norm (arr : vec3) :
  norm arr = 0 -> utils.normalize arr = arr.
Proof.
  intros H. unfold utils.normalize.
  apply eqb_spec in H. now rewrite H.
Qed.

Lemma normalize_zero_norm_witness :
  utils.normalize (mkvec 0 0 0) = mkvec 0 0 0.
Proof.
  apply (normalize_zero_norm (mkvec 0 0 0)).
  unfold norm; vec_simpl.
  apply sqrt_of_square; lra.
Defined.

(** ** raytrace.py: the closest hit *)

Section Closest.

Variable ray : Ray.

Lemma closer_keeps (seen : list Object) (state : ext * option Object)
  (obj : Object) :
  closest_of ray seen state ->
  closest_of ray (seen ++ [obj]) (closer ray state obj).
Proof.
  destruct state as [[tmin | ] [obj_h | ]]; simpl; try contradiction.
  - intros (Hpos & Hh & Hmin & before & after & Hseen & Hfirst).
    destruct (ltb 0 (intersect ray obj)) eqn:H0; simpl.
    + apply ltb_spec in H0.
      destruct (ltb (intersect ray obj) tmin) eqn:Hlt.
      * apply ltb_spec in Hlt. simpl. repeat split; auto.
        -- intros o Ho Hpo. apply in_app_or in Ho as [Ho | [<- | []]].
           ++ specialize (Hmin o Ho Hpo). lra.
           ++ lra.
        -- exists seen, []. split; [ reflexivity | ].
           intros o Ho Hpo. specialize (Hmin o Ho Hpo). lra.
      * apply ltb_false in Hlt. simpl. repeat split; auto.
        -- intros o Ho Hpo. apply in_app_or in Ho as [Ho | [<- | []]]; auto.
        -- exists before, (after ++ [obj]). split; [ | assumption ].
           rewrite Hseen, <- app_assoc. reflexivity.
    + apply ltb_false in H0. simpl. repeat split; auto.
      * intros o Ho Hpo. apply in_app_or in Ho as [Ho | [<- | []]]; auto. lra.
      * exists before, (after ++ [obj]). split; [ | assumption ].
        rewrite Hseen, <- app_assoc. reflexivity.
  - intros Hnone.
    destruct (ltb 0 (intersect ray obj)) eqn:H0; simpl.
    + apply ltb_spec in H0. repeat split; auto.
      * intros o Ho Hpo. apply in_app_or in Ho as [Ho | [<- | []]].
        -- now apply Hnone in Ho.
        -- lra.
      * exists seen, []. split; [ reflexivity | ].
        intros o Ho Hpo. now apply Hnone in Ho.
    + apply ltb_false in H0.
      intros o Ho Hpo. apply in_app_or in Ho as [Ho | [<- | []]].
      * now apply Hnone in Ho.
      * lra.
Qed.

Lemma fold_closer_keeps (objects seen : list Object)
  (state : ext * option Object) :
  closest_of ray seen state ->
  closest_of ray (seen ++ objects) (fold_left (closer ray) objects state).
Proof.
  revert seen state; induction objects as [ | obj objects IH];
    intros seen state H; simpl.
  - now rewrite app_nil_r.
  - replace (seen ++ obj :: objects) with ((seen ++ [obj]) ++ objects)
      by (rewrite <- app_assoc; reflexivity).
    apply IH, closer_keeps, H.
Qed.

Lemma closest_is_closest_of (objects : list Object) :
  closest_of ray objects (closest ray objects).
Proof.
  apply (fold_closer_keeps objects [] (Inf, None)). simpl. tauto.
Qed.

(** A hit leaves the loop with a finite [tmin] and the object hit. *)
Lemma closest_of_hit (objects : list Object) :
  (exists o, In o objects /\ 0 < intersect ray o) ->
  exists tmin obj_h, closest ray objects = (Fin tmin, Some obj_h).
Proof.
  intros (o & Ho & Hpo).
  pose proof (closest_is_closest_of objects) as H.
  destruct (closest ray objects) as [[tmin | ] [obj_h | ]]; simpl in H;
    try contradiction; eauto.
  now apply H in Ho.
Qed.

End Closest.

Lemma scene_hit :
  exists o, In o scene_objects /\ 0 < intersect ray_along_z o.
Proof.
  exists (ObjSphere (scene_sphere 25)). split; [ now left | ].
  simpl. rewrite intersect_sphere_scene_25. lra.
Qed.

Section Raytrace.

Variable get_l : light.Light -> vec3 -> vec3.
Variable get_dist : light.Light -> vec3 -> R.
Variable normal_at : Object -> vec3 -> option vec3.
Variable obj_eqb : Object -> Object -> bool.
Variable nan_to_uint8 : Z.

(** C4: the loop of [raytrace] ends with the primitive whose intersection
    parameter is the least strictly positive one, the first such primitive
    of the list when several share it, and [raytrace] goes on with that
    primitive and that parameter: it shades the primitive at the point of
    the ray at that parameter and checks the rest of the list for shadow.
    When no primitive has a strictly positive parameter the loop ends with
    nothing and [raytrace] returns the black triple. *)
Theorem raytrace_closest_hit
  (hard_shadow : option (vec3 -> list Object -> vec3 -> R -> vec3))
  (ray : Ray) (camera_pos : vec3) (objects : list Object)
  (lights : list light.Light) :
  ((exists o, In o objects /\ 0 < intersect ray o) ->
   exists tmin obj_h before after,
     closest ray objects = (Fin tmin, Some obj_h) /\
     0 < tmin /\ intersect ray obj_h = tmin /\
     (forall o, In o objects -> 0 < intersect ray o ->
                tmin <= intersect ray o) /\
     objects = before ++ obj_h :: after /\
     (forall o, In o before -> 0 < intersect ray o ->
                tmin < intersect ray o) /\
     raytrace.raytrace get_l get_dist normal_at obj_eqb hard_shadow
       nan_to_uint8 ray camera_pos objects lights
     = (color <-
          compute_color get_l normal_at nan_to_uint8 (at_ ray tmin)
            (utils.normalize (camera_pos - at_ ray tmin)%V) obj_h lights ;;
        shadow <-
          compute_shadow get_l get_dist hard_shadow nan_to_uint8
            (at_ ray tmin) (remove obj_eqb obj_h objects) lights ;;
        Ok (astype_uint8
              (vmap round_half_even
                 (astype_float color
                  * vdivs (astype_float shadow)
                      constants.MAX_COLOR_VALUE)%V)))) /\
  ((forall o, In o objects -> ~ 0 < intersect ray o) ->
   closest ray objects = (Inf, None) /\
   raytrace.raytrace get_l get_dist normal_at obj_eqb hard_shadow
     nan_to_uint8 ray camera_pos objects lights
   = Ok (UInt8 0 0 0)).
Proof.
  pose proof (closest_is_closest_of ray objects) as H.
  unfold raytrace.raytrace.
  destruct (closest ray objects) as [[tmin | ] [obj_h | ]]; simpl in H;
    try contradiction.
  - destruct H as (Hpos & Hh & Hmin & before & after & Hobjs & Hfirst).
    split.
    + intros _. exists tmin, obj_h, before, after.
      repeat (split; [ assumption || reflexivity | ]). reflexivity.
    + intros Hnone. exfalso. apply (Hnone obj_h).
      * rewrite Hobjs. apply in_elt.
      * lra.
  - split; [ | auto ].
    intros (o & Ho & Hpo). now apply H in Ho.
Qed.

(** ** raytrace.py: shading and shadow *)

(** C6: when the normal of the hit primitive is undefined at the hit
    point, the first light already makes [compute_color] return the black
    triple: no light contributes and nothing is raised. *)
Theorem compute_color_undefined_normal (ph eye : vec3) (obj : Object)
  (lights : list light.Light) :
  lights <> [] ->
  normal_at obj ph = None ->
  compute_color get_l normal_at nan_to_uint8 ph eye obj lights
  = Ok (Float64 (mkvec 0 0 0)).
Proof.
  intros Hlights Hnormal. unfold compute_color.
  destruct lights as [ | light lights']; [ contradiction | ].
  simpl. now rewrite Hnormal.
Qed.

(** With a light in the scene the shadow step looks [hard_shadow] up in
    [shaders], where it is not bound. *)
Lemma compute_shadow_raises (ph : vec3) (objects : list Object)
  (lights : list light.Light) :
  lights <> [] ->
  compute_shadow get_l get_dist shaders.hard_shadow nan_to_uint8
    ph objects lights
  = Raise (AttributeError "shaders" "hard_shadow").
Proof.
  intros Hlights. unfold compute_shadow.
  destruct lights as [ | light lights']; [ contradiction | reflexivity ].
Qed.

(** C2 (amended): in a scene with at least one light, [compute_shadow]
    raises [AttributeError] on the unbound [shaders.hard_shadow], and so
    every call of [raytrace] whose ray hits a primitive raises instead of
    returning a colour. *)
Theorem raytrace_hit_raises (ray : Ray) (camera_pos : vec3)
  (objects : list Object) (lights : list light.Light) :
  lights <> [] ->
  (exists o, In o objects /\ 0 < intersect ray o) ->
  (forall ph objects_to_check,
     compute_shadow get_l get_dist shaders.hard_shadow nan_to_uint8
       ph objects_to_check lights
     = Raise (AttributeError "shaders" "hard_shadow")) /\
  exists e,
    raytrace.raytrace get_l get_dist normal_at obj_eqb shaders.hard_shadow
      nan_to_uint8 ray camera_pos objects lights
    = Raise e.
Proof.
  intros Hlights Hhit. split.
  - intros ph objs. now apply compute_shadow_raises.
  - destruct (closest_of_hit ray objects Hhit) as (tmin & obj_h & Hc).
    unfold raytrace.raytrace. rewrite Hc.
    destruct (compute_color get_l normal_at nan_to_uint8 (at_ ray tmin)
                (utils.normalize (camera_pos - at_ ray tmin)%V) obj_h lights)
      as [color | e]; simpl.
    + rewrite compute_shadow_raises by assumption. simpl. eauto.
    + eauto.
Qed.

End Raytrace.

(** The camera ray hits the sphere of the scene, and [raytrace] goes on
    with that sphere at [t = 75]. *)
Lemma raytrace_closest_hit_witness :
  exists tmin obj_h,
    closest ray_along_z scene_objects = (Fin tmin, Some obj_h) /\
    raytrace.raytrace light_get_l light_get_dist undefined_normal never_equal
      shaders.hard_shadow 0 ray_along_z (mkvec 0 0 0) scene_objects
      [spot_light]
    = (color <-
         compute_color light_get_l undefined_normal 0 (at_ ray_along_z tmin)
           (utils.normalize (mkvec 0 0 0 - at_ ray_along_z tmin)%V) obj_h
           [spot_light] ;;
       shadow <-
         compute_shadow light_get_l light_get_dist shaders.hard_shadow 0
           (at_ ray_along_z tmin) (remove never_equal obj_h scene_objects)
           [spot_light] ;;
       Ok (astype_uint8
             (vmap round_half_even
                (astype_float color
                 * vdivs (astype_float shadow)
                     constants.MAX_COLOR_VALUE)%V))).
Proof.
  destruct (raytrace_closest_hit light_get_l light_get_dist undefined_normal
              never_equal 0 shaders.hard_shadow ray_along_z (mkvec 0 0 0)
              scene_objects [spot_light]) as [Hhit _].
  destruct (Hhit scene_hit)
    as (tmin & obj_h & before & after & Hc & H1 & H2 & H3 & H4 & H5 & Hr).
  exists tmin, obj_h. split; assumption.
Defined.

Lemma compute_color_undefined_normal_witness :
  compute_color light_get_l undefined_normal 0 (mkvec 0 0 75) (mkvec 0 0 (-1))
    (ObjSphere (scene_sphere 25)) [spot_light]
  = Ok (Float64 (mkvec 0 0 0)).
Proof.
  apply (compute_color_undefined_normal light_get_l undefined_normal 0).
  - discriminate.
  - reflexivity.
Defined.

Lemma raytrace_hit_raises_witness :
  exists e,
    raytrace.raytrace light_get_l light_get_dist undefined_normal never_equal
      shaders.hard_shadow 0 ray_along_z (mkvec 0 0 0) scene_objects
      [spot_light]
    = Raise e.
Proof.
  apply (raytrace_hit_raises light_get_l light_get_dist undefined_normal
           never_equal 0 ray_along_z (mkvec 0 0 0) scene_objects [spot_light]).
  - discriminate.
  - exact scene_hit.
Defined.

(** C2 (as stated) fails: with no light in the scene the loop of
    [compute_shadow] never looks [hard_shadow] up, and the ray of the
    camera, which hits the sphere, gets a colour. *)
Lemma raytrace_hit_without_light_returns :
  (exists o, In o scene_objects /\ 0 < intersect ray_along_z o) /\
  exists color,
    raytrace.raytrace light_get_l light_get_dist undefined_normal never_equal
      shaders.hard_shadow 0 ray_along_z (mkvec 0 0 0) scene_objects []
    = Ok color.
Proof.
  split; [ exact scene_hit | ].
  unfold raytrace.raytrace, closest, scene_objects. simpl fold_left.
  unfold closer. simpl intersect. rewrite intersect_sphere_scene_25.
  assert (H : ltb 0 75 = true) by (apply ltb_spec; lra).
  rewrite H. simpl. eauto.
Qed.

(** ** sky.py: the lookup of [utils.distance] *)

(** No sample is ever skipped as shadowed when the atmosphere shell is not
    smaller than the planet. *)
Lemma never_in_shadow (self : SkyDome) (sample_point : vec3) :
  0 <= radius self -> 0 <= atmosphere_height self ->
  in_shadow self sample_point = false.
Proof.
  intros Hr Hh. unfold in_shadow, atmosphere_obj, planet_obj; simpl.
  set (sun_ray := mkRay sample_point (sun_direction self)).
  destruct (ltb 0 (intersect_sphere sun_ray
                     (mkSphere (center self) None None (radius self))))
    eqn:Hp; [ | reflexivity ].
  apply ltb_spec in Hp. simpl. apply ltb_false.
  apply intersect_sphere_concentric; [ nra | assumption ].
Qed.

Section UnboundDistance.

Variable self : SkyDome.

Let unbound : exn := AttributeError "utils" "distance".

Lemma density_at_point_raises (p : vec3) :
  density_at_point utils.distance self p = Raise unbound.
Proof. reflexivity. Qed.

Lemma optical_depth_raises (p direction : vec3) (distance : R)
  (num_samples : nat) (g : rng) :
  (0 < num_samples)%nat ->
  optical_depth utils.distance self p direction distance num_samples g
  = Raise unbound.
Proof.
  intros Hn. destruct num_samples as [ | k]; [ lia | reflexivity ].
Qed.

Lemma out_scattering_raises (p direction : vec3) (distance : R)
  (num_samples : nat) (g : rng) :
  (0 < num_samples)%nat ->
  out_scattering utils.distance self p direction distance num_samples g
  = Raise unbound.
Proof.
  intros Hn. unfold out_scattering, mbind.
  now rewrite optical_depth_raises.
Qed.

Hypothesis radius_nonneg : 0 <= radius self.
Hypothesis height_nonneg : 0 <= atmosphere_height self.

Lemma in_scattering_raises (r : Ray) (view_samples : nat) (g : rng) :
  (0 < view_samples)%nat ->
  in_scattering utils.distance self r view_samples g = Raise unbound.
Proof.
  intros Hn. destruct view_samples as [ | k]; [ lia | ].
  unfold in_scattering, mbind at 1, random_sample, range.
  cbn [seq for_range]. unfold mbind at 1, mbind at 1, in_scattering_sample.
  rewrite never_in_shadow by assumption.
  unfold mbind at 1. rewrite out_scattering_raises; [ reflexivity | ].
  unfold OPTICAL_DEPTH_SAMPLES; lia.
Qed.

Lemma light_at_ray_raises (r : Ray) (view_samples : nat) (g : rng) :
  (0 < view_samples)%nat ->
  light_at_ray utils.distance self r view_samples g = Raise unbound.
Proof.
  intros Hn. destruct view_samples as [ | k]; [ lia | ].
  unfold light_at_ray, mbind at 1, random_sample, range.
  cbn [seq for_range]. unfold mbind at 1, mbind at 1, light_at_ray_sample.
  rewrite never_in_shadow by assumption.
  unfold mbind at 1. rewrite optical_depth_raises; [ reflexivity | ].
  unfold OPTICAL_DEPTH_SAMPLES; lia.
Qed.

End UnboundDistance.

(** C3 (amended): [density_at_point] raises [AttributeError] on the unbound
    [utils.distance] at every point, and with it [optical_depth] and
    [out_scattering] whenever they take at least one sample, and
    [in_scattering] and [light_at_ray] whenever they take at least one
    view sample in a sky whose radius and atmosphere height are not
    negative. *)
Theorem atmosphere_raises (self : SkyDome) (p direction : vec3) (distance : R)
  (r : Ray) (num_samples view_samples : nat) (g : rng) :
  (0 < num_samples)%nat -> (0 < view_samples)%nat ->
  0 <= radius self -> 0 <= atmosphere_height self ->
  let unbound := AttributeError "utils" "distance" in
  density_at_point utils.distance self p = Raise unbound /\
  optical_depth utils.distance self p direction distance num_samples g
  = Raise unbound /\
  out_scattering utils.distance self p direction distance num_samples g
  = Raise unbound /\
  in_scattering utils.distance self r view_samples g = Raise unbound /\
  light_at_ray utils.distance self r view_samples g = Raise unbound.
Proof.
  intros Hn Hv Hr Hh unbound. repeat split.
  - now apply optical_depth_raises.
  - now apply out_scattering_raises.
  - now apply in_scattering_raises.
  - now apply light_at_ray_raises.
Qed.

Lemma default_sky_nonneg :
  0 <= radius default_sky /\ 0 <= atmosphere_height default_sky.
Proof.
  unfold default_sky, DEFAULT_ATMOSPHERE_HEIGHT, EARTH_RADIUS; simpl. lra.
Qed.

Lemma atmosphere_raises_witness :
  light_at_ray utils.distance default_sky ray_along_z IN_SCATTER_SAMPLES
    no_jitter
  = Raise (AttributeError "utils" "distance").
Proof.
  apply (atmosphere_raises default_sky (mkvec 0 0 0) (mkvec 0 0 1) 1
           ray_along_z OPTICAL_DEPTH_SAMPLES IN_SCATTER_SAMPLES no_jitter).
  - unfold OPTICAL_DEPTH_SAMPLES; lia.
  - unfold IN_SCATTER_SAMPLES; lia.
  - apply default_sky_nonneg.
  - apply default_sky_nonneg.
Defined.

(** C3 (as stated) fails: asked for no sample, [optical_depth] and
    [out_scattering] never reach [density_at_point] and return. *)
Lemma optical_depth_no_sample_returns :
  optical_depth utils.distance default_sky (mkvec 0 0 0) (mkvec 0 0 1) 1 0
    no_jitter
  = Ok (0, no_jitter) /\
  exists out,
    out_scattering utils.distance default_sky (mkvec 0 0 0) (mkvec 0 0 1) 1 0
      no_jitter
    = Ok (out, no_jitter).
Proof.
  split; [ reflexivity | ]. eexists. reflexivity.
Qed.

(** C9: the density is never computed: the lookup of [utils.distance]
    raises first, here at the origin of the default sky. *)
Theorem density_at_point_unbound_distance :
  density_at_point utils.distance default_sky (mkvec 0 0 0)
  = Raise (AttributeError "utils" "distance").
Proof.
  unfold density_at_point, utils.distance, getattr, bind. reflexivity.
Qed.

(** ** sky.py: what the atmosphere computes once [utils.distance] is bound *)

Section BoundDistance.

Variable distance_fn : vec3 -> vec3 -> R.
Variable self : SkyDome.

Let utils_distance := Some distance_fn.
Let h := normalized_height_at distance_fn self.

Lemma density_at_point_value (p : vec3) :
  density_at_point utils_distance self p
  = Ok (exp (- h p * DENSITY_FALLOFF) * (1 - h p)).
Proof. reflexivity. Qed.

(** The profile [exp (- x * falloff) * (1 - x)] on the band [0 <= x <= 1]. *)
Lemma density_profile_nonneg (x : R) :
  0 <= x <= 1 -> 0 <= exp (- x * DENSITY_FALLOFF) * (1 - x).
Proof.
  intros Hx. apply Rmult_le_pos; [ left; apply exp_pos | lra ].
Qed.

Lemma density_profile_decreasing (x1 x2 : R) :
  0 <= x1 -> x1 < x2 -> x2 <= 1 ->
  exp (- x2 * DENSITY_FALLOFF) * (1 - x2)
  < exp (- x1 * DENSITY_FALLOFF) * (1 - x1).
Proof.
  intros H0 Hlt H1. unfold DENSITY_FALLOFF.
  assert (He : exp (- x2 * 4) < exp (- x1 * 4)) by (apply exp_increasing; lra).
  assert (Hp := exp_pos (- x2 * 4)).
  apply Rle_lt_trans with (exp (- x1 * 4) * (1 - x2)).
  - apply Rmult_le_compat_r; lra.
  - apply Rmult_lt_compat_l; [ apply exp_pos | lra ].
Qed.

(** With [distance] bound and an atmosphere whose height is not zero,
    [density_at_point] is [exp (- h * falloff) * (1 - h)] at the
    normalized height [h] of the point; on the band [0 <= h <= 1] it is
    not negative, and of two points of the band the higher one has the
    strictly smaller density. *)
Theorem density_at_point_profile (p q : vec3) :
  atmosphere_height self <> 0 ->
  exists dp dq,
    density_at_point utils_distance self p = Ok dp /\
    density_at_point utils_distance self q = Ok dq /\
    dp = exp (- h p * DENSITY_FALLOFF) * (1 - h p) /\
    (0 <= h p <= 1 -> 0 <= dp) /\
    (0 <= h p -> h p < h q -> h q <= 1 -> dq < dp).
Proof.
  intros _. do 2 eexists.
  split; [ apply density_at_point_value | ].
  split; [ apply density_at_point_value | ].
  split; [ reflexivity | ]. split.
  - apply density_profile_nonneg.
  - apply density_profile_decreasing.
Qed.

Lemma optical_depth_loop_returns (p direction : vec3) (distance : R)
  (num_samples : nat) (randoms : list R) (indices : list nat)
  (optical_depth : R) (g : rng) :
  exists v,
    for_range indices
      (optical_depth_sample utils_distance self p direction distance
         num_samples randoms)
      optical_depth g
    = Ok (v, g).
Proof.
  revert optical_depth; induction indices as [ | i indices IH];
    intros optical_depth; simpl.
  - now exists optical_depth.
  - unfold mbind at 1. unfold optical_depth_sample, mbind, lift, ret.
    rewrite density_at_point_value. apply IH.
Qed.

Lemma optical_depth_returns (p direction : vec3) (distance : R)
  (num_samples : nat) (g : rng) :
  exists v,
    optical_depth utils_distance self p direction distance num_samples g
    = Ok (v, fun i => g (num_samples + i)%nat).
Proof.
  unfold optical_depth, mbind at 1, random_sample.
  apply optical_depth_loop_returns.
Qed.

(** One turn of the loop of [light_at_ray] on a sample that is not skipped:
    the two optical depths, the density, and what is added to [light]. *)
Lemma light_at_ray_sample_eval (r : Ray) (view_samples : nat)
  (randoms : list R) (dist_to_atmosphere : R) (i : nat) (light : vec3)
  (g : rng) :
  let distance :=
    dist_to_atmosphere / INR view_samples * (INR i + nth i randoms 0) in
  let sample_point := at_ r distance in
  let sun_ray := mkRay sample_point (sun_direction self) in
  in_shadow self sample_point = false ->
  exists sun_ray_optical_depth view_ray_optical_depth sample_density g1 g2,
    optical_depth utils_distance self (pr sun_ray) (nr sun_ray)
      (intersect sun_ray (atmosphere_obj self)) OPTICAL_DEPTH_SAMPLES g
    = Ok (sun_ray_optical_depth, g1) /\
    optical_depth utils_distance self sample_point (vneg (nr r)) distance
      OPTICAL_DEPTH_SAMPLES g1
    = Ok (view_ray_optical_depth, g2) /\
    density_at_point utils_distance self sample_point = Ok sample_density /\
    light_at_ray_sample utils_distance self r view_samples randoms
      dist_to_atmosphere i light g
    = Ok ((light
           + (sample_density
              * (dist_to_atmosphere / INR view_samples * nth i randoms 0))
             *: vmap exp
                  ((- (sun_ray_optical_depth + view_ray_optical_depth))
                   *: SCATTERING_COEFFICIENTS))%V,
          g2).
Proof.
  intros distance sample_point sun_ray Hlit.
  destruct (optical_depth_returns (pr sun_ray) (nr sun_ray)
              (intersect sun_ray (atmosphere_obj self))
              OPTICAL_DEPTH_SAMPLES g) as [od_sun Hsun].
  set (g1 := fun i => g (OPTICAL_DEPTH_SAMPLES + i)%nat) in Hsun.
  destruct (optical_depth_returns sample_point (vneg (nr r)) distance
              OPTICAL_DEPTH_SAMPLES g1) as [od_view Hview].
  set (g2 := fun i => g1 (OPTICAL_DEPTH_SAMPLES + i)%nat) in Hview.
  exists od_sun, od_view,
    (exp (- h sample_point * DENSITY_FALLOFF) * (1 - h sample_point)), g1, g2.
  repeat split; try assumption.
  unfold light_at_ray_sample. fold distance sample_point sun_ray.
  rewrite Hlit. unfold mbind at 1. rewrite Hsun.
  unfold mbind at 1. rewrite Hview.
  unfold mbind, lift, ret. rewrite density_at_point_value. reflexivity.
Qed.

End BoundDistance.

(** ** sky.py: two samples along [ray_inward] *)

Lemma unit_sky_never_in_shadow (p : vec3) : in_shadow unit_sky p = false.
Proof. apply never_in_shadow; simpl; lra. Qed.

Lemma ray_inward_enters :
  intersect ray_inward (atmosphere_obj unit_sky) = 2.
Proof.
  unfold intersect, atmosphere_obj, intersect_sphere, ray_inward, unit_sky.
  cbv [center radius atmosphere_height]. vec_simpl.
  repeat decide_cmp. cbn [orb]. sqrt_is 2. lra.
Qed.

(** The normalized height of the point of [ray_inward] at the distance [t]
    before it reaches the planet. *)
Lemma ray_inward_height (t : R) :
  t <= 4 ->
  normalized_height_at euclidean unit_sky (at_ ray_inward t) = 3 - t.
Proof.
  intros Ht.
  unfold normalized_height_at, euclidean, norm, unit_sky, ray_inward.
  cbv [center radius atmosphere_height]. vec_simpl.
  sqrt_is (4 - t). lra.
Qed.

(** * More of the code: geometry, shading, compositing, atmosphere *)

(** ** Vocabulary *)

(** The point [p] lies in [plane]. *)
Definition on_plane (plane : Plane) (p : vec3) : Prop :=
  dot (position plane - p)%V (n plane) = 0.

(** A vector of length one. *)
Definition unit_vector (v : vec3) : Prop := dot v v = 1.

(** Every channel of [c] lies between the same channel of [a] and of [b],
    whichever of the two is the smaller. *)
Definition channels_between (a b c : vec3) : Prop :=
  (Rmin (vx a) (vx b) <= vx c <= Rmax (vx a) (vx b)) /\
  (Rmin (vy a) (vy b) <= vy c <= Rmax (vy a) (vy b)) /\
  (Rmin (vz a) (vz b) <= vz c <= Rmax (vz a) (vz b)).

(** A byte. *)
Definition is_byte (z : Z) : Prop := (0 <= z <= 255)%Z.

(** The ray and the object moved by the same vector. *)
Definition shift_ray (v : vec3) (r : Ray) : Ray := mkRay (pr r + v)%V (nr r).
Definition shift_sphere (v : vec3) (s : Sphere) : Sphere :=
  mkSphere (sphere_position s + v)%V (sphere_material s)
    (sphere_shader_type s) (object.radius s).
Definition shift_plane (v : vec3) (p : Plane) : Plane :=
  mkPlane (position p + v)%V (plane_material p) (plane_shader_type p) (n p).

(** ** Numbers *)

Lemma vec3_eq (a b : vec3) :
  vx a = vx b -> vy a = vy b -> vz a = vz b -> a = b.
Proof. destruct a, b; simpl; intros -> -> ->; reflexivity. Qed.

Lemma trunc_range (x : R) (lo hi : Z) :
  IZR lo <= x <= IZR hi -> (lo <= trunc x <= hi)%Z.
Proof.
  intros [Hlo Hhi]. unfold trunc.
  destruct (base_Int_part x) as [Hle Hgt]. split.
  - assert (H : IZR (lo - 1) < IZR (Int_part x))
      by (rewrite minus_IZR; lra).
    apply lt_IZR in H. lia.
  - apply le_IZR. lra.
Qed.

Lemma trunc_IZR (k : Z) : trunc (IZR k) = k.
Proof.
  assert (H : (k <= trunc (IZR k) <= k)%Z) by (apply trunc_range; lra).
  lia.
Qed.

Lemma clip_range (x lo hi : R) : lo <= hi -> lo <= Rmin (Rmax x lo) hi <= hi.
Proof.
  intros H. unfold Rmin, Rmax.
  destruct (Rle_dec x lo); destruct (Rle_dec _ hi); lra.
Qed.

(** Rounding a value of [[0, c]] to the nearest integer stays in [[0, c]]. *)
Lemma round_half_even_range (y : R) (c : Z) :
  0 <= y <= IZR c ->
  exists k, round_half_even y = IZR k /\ (0 <= k <= c)%Z.
Proof.
  intros [H0 Hc]. unfold round_half_even.
  destruct (base_Int_part y) as [Hle Hgt].
  set (f := Int_part y) in *.
  assert (Hf0 : (0 <= f)%Z).
  { assert (H : IZR (-1) < IZR f) by lra. apply lt_IZR in H. lia. }
  assert (Hfc : (f <= c)%Z) by (apply le_IZR; lra).
  assert (Hup : 1 / 2 <= y - IZR f -> (f + 1 <= c)%Z).
  { intros Hd. assert (H : IZR f < IZR c) by lra. apply lt_IZR in H. lia. }
  destruct (ltb (y - IZR f) (1 / 2)) eqn:H1.
  - exists f. split; [ reflexivity | lia ].
  - apply ltb_false in H1. specialize (Hup H1).
    destruct (ltb (1 / 2) (y - IZR f)).
    + exists (f + 1)%Z. split; [ reflexivity | lia ].
    + destruct (Z.even f).
      * exists f. split; [ reflexivity | lia ].
      * exists (f + 1)%Z. split; [ reflexivity | lia ].
Qed.

(** Cauchy and Schwarz, from the identity of Lagrange. *)
Lemma dot_square_le (a b : vec3) : dot a b ^ 2 <= dot a a * dot b b.
Proof.
  destruct a as [a1 a2 a3], b as [b1 b2 b3]. vec_simpl.
  assert (H : (a1 * a1 + a2 * a2 + a3 * a3) * (b1 * b1 + b2 * b2 + b3 * b3)
              - (a1 * b1 + a2 * b2 + a3 * b3) ^ 2
              = (a1 * b2 - a2 * b1) ^ 2 + (a1 * b3 - a3 * b1) ^ 2
                + (a2 * b3 - a3 * b2) ^ 2) by ring.
  assert (H1 := pow2_ge_0 (a1 * b2 - a2 * b1)).
  assert (H2 := pow2_ge_0 (a1 * b3 - a3 * b1)).
  assert (H3 := pow2_ge_0 (a2 * b3 - a3 * b2)).
  lra.
Qed.

Lemma dot_unit_range (a b : vec3) :
  unit_vector a -> unit_vector b -> -1 <= dot a b <= 1.
Proof.
  unfold unit_vector. intros Ha Hb.
  pose proof (dot_square_le a b) as H. rewrite Ha, Hb in H. nra.
Qed.

(** ** ray.py: what the plane and the triangle return *)

Lemma plane_offset_along_ray (self : Ray) (plane : Plane) (t : R) :
  dot (position plane - at_ self t)%V (n plane)
  = dot (position plane - pr self)%V (n plane)
    - t * dot (nr self) (n plane).
Proof.
  destruct self as [[ox oy oz] [dx dy dz]].
  destruct plane as [[px py pz] m s [nx ny nz]]. vec_simpl. ring.
Qed.

Lemma intersect_plane_least (self : Ray) (plane : Plane) :
  let r := intersect_plane self plane in
  (r = -1 -> forall t, 0 <= t -> ~ on_plane plane (at_ self t)) /\
  (r <> -1 ->
   0 <= r /\ on_plane plane (at_ self r) /\
   forall t, 0 <= t -> on_plane plane (at_ self t) -> r <= t).
Proof.
  unfold on_plane, intersect_plane.
  set (d := dot (nr self) (n plane)).
  set (e := dot (position plane - pr self)%V (n plane)).
  assert (Hoff : forall t,
             dot (position plane - at_ self t)%V (n plane) = e - t * d)
    by (intros t; apply plane_offset_along_ray).
  destruct (eqb d 0) eqn:Hd.
  - apply eqb_spec in Hd. destruct (eqb e 0) eqn:He.
    + apply eqb_spec in He. split; [ intros H; lra | ].
      intros _. repeat split; [ lra | rewrite Hoff; nra | ].
      intros t Ht _. exact Ht.
    + apply eqb_false in He. split; [ | intros H; lra ].
      intros _ t Ht. rewrite Hoff, Hd. nra.
  - apply eqb_false in Hd. cbv zeta. destruct (ltb (e / d) 0) eqn:Ht0.
    + apply ltb_spec in Ht0. split; [ | intros H; lra ].
      intros _ t Ht. rewrite Hoff. intros H.
      assert (Heq : t = e / d) by (field_simplify_eq; [ lra | exact Hd ]).
      lra.
    + apply ltb_false in Ht0. split; [ intros H; lra | ].
      intros _. repeat split; [ exact Ht0 | rewrite Hoff; now field | ].
      intros t Ht H. rewrite Hoff in H.
      assert (Heq : t = e / d) by (field_simplify_eq; [ lra | exact Hd ]).
      lra.
Qed.

(** [intersect_plane] is [-1] exactly when no point of the ray at a
    parameter [t >= 0] lies in the plane; otherwise it is the least such
    parameter (0 for a ray that runs inside the plane). *)
Theorem intersect_plane_first_point (self : Ray) (plane : Plane) :
  let r := intersect_plane self plane in
  (r = -1 -> forall t, 0 <= t -> ~ on_plane plane (at_ self t)) /\
  (r <> -1 ->
   0 <= r /\ on_plane plane (at_ self r) /\
   forall t, 0 <= t -> on_plane plane (at_ self t) -> r <= t).
Proof. exact (intersect_plane_least self plane). Qed.

Lemma intersect_triangle_hit (self : Ray) (triangle : Triangle) :
  intersect_triangle self triangle <> -1 ->
  intersect_triangle self triangle
  = intersect_plane self (triangle_plane triangle) /\
  in_unit_triangle
    (get_barycentric_coord triangle
       (at_ self (intersect_plane self (triangle_plane triangle)))).
Proof.
  unfold intersect_triangle, in_unit_triangle.
  destruct (get_barycentric_coord triangle
              (at_ self (intersect_plane self (triangle_plane triangle))))
    as [s t].
  destruct (leb 0 s) eqn:Hs0; destruct (leb s 1) eqn:Hs1;
    destruct (leb 0 t) eqn:Ht0; destruct (leb t 1) eqn:Ht1;
    destruct (leb 0 (s + t)) eqn:Hst0; destruct (leb (s + t) 1) eqn:Hst1;
    simpl; intros H; try (exfalso; apply H; reflexivity).
  repeat match goal with
         | H : leb _ _ = true |- _ => apply leb_spec in H
         end.
  repeat split; assumption.
Qed.

(** A triangle that is hit is hit ahead of the origin, at a point of its
    supporting plane whose barycentric coordinates lie in the unit
    triangle. *)
Theorem intersect_triangle_hit_point (self : Ray) (triangle : Triangle) :
  let r := intersect_triangle self triangle in
  r <> -1 ->
  0 <= r /\ on_plane (triangle_plane triangle) (at_ self r) /\
  in_unit_triangle (get_barycentric_coord triangle (at_ self r)).
Proof.
  intros r Hr. destruct (intersect_triangle_hit self triangle Hr) as [Heq Hin].
  fold r in Heq. rewrite <- Heq in Hin.
  destruct (intersect_plane_least self (triangle_plane triangle))
    as [_ Hhit].
  rewrite <- Heq in Hhit. destruct (Hhit Hr) as (H0 & Hon & _).
  repeat split; assumption.
Qed.

Lemma intersect_triangle_corner_inside :
  intersect_triangle (ray_down_at (1 / 4) (1 / 4)) corner_triangle = 5.
Proof.
  unfold intersect_triangle. rewrite intersect_plane_corner.
  unfold ray_down_at, corner_triangle; vec_simpl.
  cbv [get_barycentric_coord vx vy].
  repeat match goal with
         | |- context [leb ?x ?y] =>
             let H := fresh in
             assert (H : leb x y = true) by (apply leb_spec; lra);
             rewrite H; clear H
         end.
  reflexivity.
Qed.

Lemma intersect_triangle_hit_point_witness :
  0 <= intersect_triangle (ray_down_at (1 / 4) (1 / 4)) corner_triangle.
Proof.
  apply (intersect_triangle_hit_point
           (ray_down_at (1 / 4) (1 / 4)) corner_triangle).
  rewrite intersect_triangle_corner_inside. lra.
Defined.

(** ** ray.py: the sphere seen from inside, and moved *)

(** From an origin strictly inside a sphere no hit is ever reported: the
    value is negative whatever the direction. *)
Theorem intersect_sphere_from_inside (self : Ray) (sphere : Sphere) :
  let dif := (pr self - sphere_position sphere)%V in
  dot dif dif < object.radius sphere ^ 2 ->
  intersect_sphere self sphere < 0.
Proof.
  intros dif Hin. unfold intersect_sphere. fold dif.
  set (b := dot (nr self) dif).
  destruct (ltb 0 b) eqn:Hb; cbn [orb]; [ lra | ].
  apply ltb_false in Hb.
  destruct (ltb (b ^ 2 - (dot dif dif - object.radius sphere ^ 2)) 0);
    [ lra | ].
  assert (Hlt : sqrt ((- b) * (- b))
                < sqrt (b ^ 2 - (dot dif dif - object.radius sphere ^ 2))).
  { apply sqrt_lt_1_alt; nra. }
  rewrite sqrt_square in Hlt by lra. lra.
Qed.

Lemma intersect_sphere_from_inside_witness :
  intersect_sphere ray_along_z sphere_around_origin < 0.
Proof.
  apply (intersect_sphere_from_inside ray_along_z sphere_around_origin).
  unfold ray_along_z, sphere_around_origin; vec_simpl. lra.
Defined.

Lemma shift_cancels (a b v : vec3) : ((a + v) - (b + v))%V = (a - b)%V.
Proof. apply vec3_eq; vec_simpl; ring. Qed.

(** Moving the ray and the primitive by the same vector changes neither
    the sphere intersection nor the plane intersection. *)
Theorem intersect_translation (v : vec3) (self : Ray) (sphere : Sphere)
  (plane : Plane) :
  intersect_sphere (shift_ray v self) (shift_sphere v sphere)
  = intersect_sphere self sphere /\
  intersect_plane (shift_ray v self) (shift_plane v plane)
  = intersect_plane self plane.
Proof.
  split.
  - unfold intersect_sphere, shift_ray, shift_sphere.
    cbn [pr nr sphere_position object.radius].
    now rewrite shift_cancels.
  - unfold intersect_plane, shift_ray, shift_plane.
    cbn [pr nr position n].
    now rewrite shift_cancels.
Qed.

(** ** utils.py: [normalize] *)

Lemma dot_self_nonneg (a : vec3) : 0 <= dot a a.
Proof. destruct a as [x y z]; vec_simpl; nra. Qed.

Lemma norm_square (a : vec3) : norm a * norm a = dot a a.
Proof. unfold norm. apply sqrt_sqrt, dot_self_nonneg. Qed.

Lemma normalize_unit_lemma (arr : vec3) :
  norm arr <> 0 -> unit_vector (utils.normalize arr).
Proof.
  intros Hn. unfold utils.normalize, unit_vector.
  assert (He : eqb (norm arr) 0 = false) by now apply eqb_false.
  rewrite He. pose proof (norm_square arr) as Hsq.
  destruct arr as [x y z]. vec_simpl.
  set (m := norm {| vx := x; vy := y; vz := z |}) in *.
  field_simplify_eq; [ nra | exact Hn ].
Qed.

(** [normalize] turns every vector whose norm is not zero into a vector of
    norm one, and normalizing twice is normalizing once, for every vector. *)
Theorem normalize_unit_idempotent (arr : vec3) :
  (norm arr <> 0 -> norm (utils.normalize arr) = 1) /\
  utils.normalize (utils.normalize arr) = utils.normalize arr.
Proof.
  assert (Hone : norm arr <> 0 -> norm (utils.normalize arr) = 1).
  { intros Hn. unfold norm at 1.
    rewrite (normalize_unit_lemma arr Hn). apply sqrt_1. }
  split; [ exact Hone | ].
  destruct (Req_dec_T (norm arr) 0) as [Hz | Hnz].
  - assert (H : utils.normalize arr = arr).
    { unfold utils.normalize. apply eqb_spec in Hz. now rewrite Hz. }
    now rewrite !H.
  - specialize (Hone Hnz).
    unfold utils.normalize at 1. rewrite Hone.
    assert (He : eqb 1 0 = false) by (apply eqb_false; lra).
    rewrite He. apply vec3_eq; vec_simpl; lra.
Qed.

(** ** shaders.py *)

Lemma blend_between (t a b : R) :
  0 <= t <= 1 ->
  Rmin a b <= t * b + (1 - t) * a <= Rmax a b.
Proof.
  intros Ht. unfold Rmin, Rmax. destruct (Rle_dec a b); nra.
Qed.

Lemma diffuse_coefficient_range (nh l : vec3) :
  unit_vector nh -> unit_vector l -> 0 <= Rmax 0 (dot nh l) <= 1.
Proof.
  intros Hn Hl. pose proof (dot_unit_range nh l Hn Hl) as H.
  unfold Rmax. destruct (Rle_dec 0 (dot nh l)); lra.
Qed.

(** For unit vectors the diffuse coefficient lies in [[0, 1]]; it is zero
    when the light is behind the surface and one when it shines along the
    normal. *)
Theorem diffuse_light_range (nh l : vec3) :
  unit_vector nh -> unit_vector l ->
  0 <= shaders.diffuse_light nh l <= 1 /\
  (dot nh l <= 0 -> shaders.diffuse_light nh l = 0) /\
  (nh = l -> shaders.diffuse_light nh l = 1).
Proof.
  intros Hn Hl. unfold shaders.diffuse_light. repeat split.
  - apply diffuse_coefficient_range; assumption.
  - apply diffuse_coefficient_range; assumption.
  - intros H. now apply Rmax_left.
  - intros ->. rewrite Hl. apply Rmax_right. lra.
Qed.

Lemma diffuse_light_range_witness :
  0 <= shaders.diffuse_light (mkvec 0 0 1) (mkvec 0 1 0) <= 1.
Proof.
  apply (diffuse_light_range (mkvec 0 0 1) (mkvec 0 1 0));
    unfold unit_vector; vec_simpl; lra.
Defined.

Lemma diffuse_colors_blend (nh l dark light : vec3) :
  unit_vector nh -> unit_vector l ->
  channels_between dark light (shaders.diffuse_colors nh l dark light).
Proof.
  intros Hn Hl. pose proof (diffuse_coefficient_range nh l Hn Hl) as Ht.
  unfold shaders.diffuse_colors, channels_between. vec_simpl.
  repeat split; apply blend_between; assumption.
Qed.

(** For unit vectors every channel of [diffuse_colors] lies between the
    dark and the light colour; the colour is the dark one when the light
    is behind the surface and the light one when it shines along the
    normal. *)
Theorem diffuse_colors_between (nh l dark light : vec3) :
  unit_vector nh -> unit_vector l ->
  channels_between dark light (shaders.diffuse_colors nh l dark light) /\
  (dot nh l <= 0 -> shaders.diffuse_colors nh l dark light = dark) /\
  (nh = l -> shaders.diffuse_colors nh l dark light = light).
Proof.
  intros Hn Hl. split; [ now apply diffuse_colors_blend | ]. split.
  - intros H. unfold shaders.diffuse_colors.
    rewrite (Rmax_left 0 (dot nh l)) by assumption.
    apply vec3_eq; vec_simpl; ring.
  - intros ->. unfold shaders.diffuse_colors. rewrite Hl.
    rewrite (Rmax_right 0 1) by lra.
    apply vec3_eq; vec_simpl; ring.
Qed.

Lemma diffuse_colors_between_witness :
  shaders.diffuse_colors (mkvec 0 0 1) (mkvec 0 0 1)
    (mkvec 0 0 15) (mkvec 0 0 240)
  = mkvec 0 0 240.
Proof.
  apply (diffuse_colors_between (mkvec 0 0 1) (mkvec 0 0 1)
           (mkvec 0 0 15) (mkvec 0 0 240));
    unfold unit_vector; vec_simpl; try lra; reflexivity.
Defined.

(** The cubic step [-2 s^3 + 3 s^2] keeps [[0, 1]]. *)
Lemma smoothstep_range (s : R) :
  0 <= s <= 1 -> 0 <= -2 * s ^ 3 + 3 * s ^ 2 <= 1.
Proof.
  intros Hs.
  assert (H1 : -2 * s ^ 3 + 3 * s ^ 2 = s * s * (3 - 2 * s)) by ring.
  assert (H2 : 1 - (-2 * s ^ 3 + 3 * s ^ 2)
               = (1 - s) * (1 - s) * (1 + 2 * s)) by ring.
  assert (H3 : 0 <= s * s * (3 - 2 * s)).
  { apply Rmult_le_pos; [ nra | lra ]. }
  assert (H4 : 0 <= (1 - s) * (1 - s) * (1 + 2 * s)).
  { apply Rmult_le_pos; [ nra | lra ]. }
  lra.
Qed.

Lemma clamp_unit_range (s : R) :
  0 <= (if ltb s 0 then 0 else if ltb 1 s then 1 else s) <= 1.
Proof.
  destruct (ltb s 0) eqn:H0; [ lra | ]. apply ltb_false in H0.
  destruct (ltb 1 s) eqn:H1; [ lra | ]. apply ltb_false in H1. lra.
Qed.

Lemma specular_between (nh l eye dark light : vec3) (ks : R) :
  0 <= ks <= 1 ->
  channels_between (shaders.diffuse_colors nh l dark light)
    shaders.COLOR_FOR_LIGHT
    (shaders.diffuse_with_specular nh l eye dark light ks).
Proof.
  intros Hks.
  unfold shaders.diffuse_with_specular, shaders.diffuse_colors.
  cbv zeta.
  set (s0 := (Rmax 0 (dot eye _) - 73 / 100) / (1 - 73 / 100)).
  pose proof (clamp_unit_range s0) as Hc.
  set (s1 := if ltb s0 0 then 0 else if ltb 1 s0 then 1 else s0) in *.
  pose proof (smoothstep_range s1 Hc) as Hs.
  set (s2 := -2 * s1 ^ 3 + 3 * s1 ^ 2) in *.
  assert (Hw : 0 <= s2 * ks <= 1) by nra.
  unfold channels_between, shaders.COLOR_FOR_LIGHT. vec_simpl.
  repeat split;
    match goal with
    | |- _ <= (1 - ?w) * ?c + ?w * ?h =>
        replace ((1 - w) * c + w * h) with (w * h + (1 - w) * c) by ring
    | |- (1 - ?w) * ?c + ?w * ?h <= _ =>
        replace ((1 - w) * c + w * h) with (w * h + (1 - w) * c) by ring
    end;
    apply blend_between; assumption.
Qed.

Lemma specular_absent (nh l eye dark light : vec3) (ks : R) :
  dot eye (-1 *: l + (2 * dot nh l) *: nh)%V <= 73 / 100 ->
  shaders.diffuse_with_specular nh l eye dark light ks
  = shaders.diffuse_colors nh l dark light.
Proof.
  intros Hs. unfold shaders.diffuse_with_specular, shaders.diffuse_colors.
  cbv zeta.
  set (s := dot eye _) in *.
  set (s0 := (Rmax 0 s - 73 / 100) / (1 - 73 / 100)).
  assert (Hs0 : s0 <= 0).
  { unfold s0. assert (Rmax 0 s <= 73 / 100)
      by (unfold Rmax; destruct (Rle_dec 0 s); lra).
    lra. }
  assert (Hz : (if ltb s0 0 then 0 else if ltb 1 s0 then 1 else s0) = 0).
  { destruct (ltb s0 0) eqn:H0; [ reflexivity | ]. apply ltb_false in H0.
    destruct (ltb 1 s0) eqn:H1; [ apply ltb_spec in H1; lra | lra ]. }
  rewrite Hz. apply vec3_eq; vec_simpl; ring.
Qed.

(** The specular shader moves every channel of the diffuse colour towards
    the highlight colour, never beyond either of the two, when
    [0 <= ks <= 1]; where the reflected light meets the eye at a cosine of
    at most 0.73 it returns the diffuse colour unchanged. *)
Theorem diffuse_with_specular_between (nh l eye dark light : vec3) (ks : R) :
  0 <= ks <= 1 ->
  channels_between (shaders.diffuse_colors nh l dark light)
    shaders.COLOR_FOR_LIGHT
    (shaders.diffuse_with_specular nh l eye dark light ks) /\
  (dot eye (-1 *: l + (2 * dot nh l) *: nh)%V <= 73 / 100 ->
   shaders.diffuse_with_specular nh l eye dark light ks
   = shaders.diffuse_colors nh l dark light).
Proof.
  intros Hks. split.
  - now apply specular_between.
  - apply specular_absent.
Qed.

Lemma diffuse_with_specular_between_witness :
  channels_between
    (shaders.diffuse_colors (mkvec 0 0 1) (mkvec 0 1 0)
       (mkvec 0 0 15) (mkvec 0 0 240))
    shaders.COLOR_FOR_LIGHT
    (shaders.diffuse_with_specular (mkvec 0 0 1) (mkvec 0 1 0) (mkvec 0 0 1)
       (mkvec 0 0 15) (mkvec 0 0 240) shaders.DEFAULT_KS).
Proof.
  apply (diffuse_with_specular_between (mkvec 0 0 1) (mkvec 0 1 0)
           (mkvec 0 0 1) (mkvec 0 0 15) (mkvec 0 0 240) shaders.DEFAULT_KS).
  unfold shaders.DEFAULT_KS. lra.
Defined.

(** The border shader returns the specular colour unchanged wherever the
    eye sees the surface at a cosine of at least [1 - thickness], and
    otherwise moves every channel towards the border colour, never beyond
    either of the two. *)
Theorem diffuse_specular_border_between (nh l eye dark light : vec3)
  (ks thickness : R) :
  0 <= thickness < 1 ->
  channels_between (shaders.diffuse_with_specular nh l eye dark light ks)
    shaders.COLOR_FOR_BORDER
    (shaders.diffuse_specular_border nh l eye dark light ks thickness) /\
  (1 - thickness <= dot eye nh ->
   shaders.diffuse_specular_border nh l eye dark light ks thickness
   = shaders.diffuse_with_specular nh l eye dark light ks).
Proof.
  intros Hth. unfold shaders.diffuse_specular_border. cbv zeta.
  set (b0 := (Rmax 0 (1 - dot eye nh) - thickness) / (1 - thickness)).
  pose proof (clamp_unit_range b0) as Hc.
  set (b := if ltb b0 0 then 0 else if ltb 1 b0 then 1 else b0) in *.
  set (color := shaders.diffuse_with_specular nh l eye dark light ks).
  split.
  - unfold channels_between, shaders.COLOR_FOR_BORDER. vec_simpl.
    repeat split;
      match goal with
      | |- _ <= (1 - ?w) * ?c + ?w * ?h =>
          replace ((1 - w) * c + w * h) with (w * h + (1 - w) * c) by ring
      | |- (1 - ?w) * ?c + ?w * ?h <= _ =>
          replace ((1 - w) * c + w * h) with (w * h + (1 - w) * c) by ring
      end;
      apply blend_between; assumption.
  - intros Hcos.
    assert (Hb0 : b0 <= 0).
    { unfold b0.
      assert (Hm : Rmax 0 (1 - dot eye nh) <= thickness)
        by (unfold Rmax; destruct (Rle_dec 0 (1 - dot eye nh)); lra).
      assert (Hi : 0 < / (1 - thickness)) by (apply Rinv_0_lt_compat; lra).
      unfold Rdiv. nra. }
    assert (Hz : b = 0).
    { unfold b. destruct (ltb b0 0) eqn:H0; [ reflexivity | ].
      apply ltb_false in H0.
      destruct (ltb 1 b0) eqn:H1; [ apply ltb_spec in H1; lra | lra ]. }
    rewrite Hz. apply vec3_eq; vec_simpl; ring.
Qed.

Lemma diffuse_specular_border_between_witness :
  shaders.diffuse_specular_border (mkvec 0 0 1) (mkvec 0 1 0) (mkvec 0 0 1)
    (mkvec 0 0 15) (mkvec 0 0 240) shaders.DEFAULT_KS
    shaders.DEFAULT_THICKNESS
  = shaders.diffuse_with_specular (mkvec 0 0 1) (mkvec 0 1 0) (mkvec 0 0 1)
      (mkvec 0 0 15) (mkvec 0 0 240) shaders.DEFAULT_KS.
Proof.
  apply (diffuse_specular_border_between (mkvec 0 0 1) (mkvec 0 1 0)
           (mkvec 0 0 1) (mkvec 0 0 15) (mkvec 0 0 240) shaders.DEFAULT_KS
           shaders.DEFAULT_THICKNESS).
  - unfold shaders.DEFAULT_THICKNESS. lra.
  - unfold shaders.DEFAULT_THICKNESS; vec_simpl. lra.
Defined.

(** ** raytrace.py: what [compute_color] returns *)

(** The colour that one light adds in the loop of [compute_color], chosen
    by the shader tag of the object as in the chain of [if]s there. *)
Definition light_colour (obj : Object) (mtl : Material) (nh l eye : vec3)
  : vec3 :=
  let dark := (DARK_VALUE * diffuse mtl)%V in
  let light := (LIGHT_VALUE * diffuse mtl)%V in
  let tagged (ty : string) :=
    match shader_type obj with Some s => String.eqb s ty | None => false end in
  if tagged shaders.TYPE_DIFFUSE_LIGHT then
    vfill (shaders.diffuse_light nh l)
  else if tagged shaders.TYPE_DIFFUSE_COLORS then
    shaders.diffuse_colors nh l dark light
  else if tagged shaders.TYPE_DIFF_SPECULAR then
    shaders.diffuse_with_specular nh l eye dark light shaders.DEFAULT_KS
  else if tagged shaders.TYPE_DIFF_SPEC_BORDER then
    shaders.diffuse_specular_border nh l eye dark light
      shaders.DEFAULT_KS shaders.DEFAULT_THICKNESS
  else zeros.

(** The four tags that [compute_color] knows. *)
Definition known_tags : list string :=
  [shaders.TYPE_DIFFUSE_LIGHT; shaders.TYPE_DIFFUSE_COLORS;
   shaders.TYPE_DIFF_SPECULAR; shaders.TYPE_DIFF_SPEC_BORDER].

Section Shading.

Variable get_l : light.Light -> vec3 -> vec3.
Variable get_dist : light.Light -> vec3 -> R.
Variable normal_at : Object -> vec3 -> option vec3.
Variable obj_eqb : Object -> Object -> bool.
Variable nan_to_uint8 : Z.

Lemma mean_clip_uint8_bytes (final : vec3) (len_lights : nat) :
  len_lights <> O ->
  exists r g b,
    mean_clip_uint8 nan_to_uint8 final len_lights = UInt8 r g b /\
    is_byte r /\ is_byte g /\ is_byte b.
Proof.
  intros Hlen. destruct len_lights as [ | k]; [ contradiction | ].
  unfold mean_clip_uint8, astype_uint8, clip, constants.MAX_COLOR_VALUE.
  do 3 eexists. split; [ reflexivity | ].
  cbv [vmap vx vy vz]. unfold is_byte.
  split; [ | split ]; apply trunc_range; apply clip_range; lra.
Qed.

Lemma compute_color_loop_step (ph eye : vec3) (obj : Object) (len : nat)
  (light : light.Light) (lights : list light.Light) (final_color : vec3)
  (nh : vec3) (mtl : Material) :
  normal_at obj ph = Some nh -> material obj = Some mtl ->
  compute_color_loop get_l normal_at nan_to_uint8 ph eye obj len
    (light :: lights) final_color
  = compute_color_loop get_l normal_at nan_to_uint8 ph eye obj len lights
      (final_color + light_colour obj mtl nh (get_l light ph) eye)%V.
Proof.
  intros Hn Hm. cbn [compute_color_loop]. rewrite Hn, Hm. reflexivity.
Qed.

Lemma compute_color_loop_returns (ph eye : vec3) (obj : Object) (len : nat)
  (lights : list light.Light) (nh : vec3) (mtl : Material) :
  normal_at obj ph = Some nh -> material obj = Some mtl ->
  forall final_color,
  exists final,
    compute_color_loop get_l normal_at nan_to_uint8 ph eye obj len lights
      final_color
    = Ok (mean_clip_uint8 nan_to_uint8 final len).
Proof.
  intros Hn Hm. induction lights as [ | light lights IH]; intros final_color.
  - exists final_color. reflexivity.
  - rewrite (compute_color_loop_step _ _ _ _ _ _ _ _ _ Hn Hm). apply IH.
Qed.

Lemma compute_color_cases (ph eye : vec3) (obj : Object)
  (lights : list light.Light) :
  lights <> [] ->
  match normal_at obj ph, material obj with
  | None, _ =>
      compute_color get_l normal_at nan_to_uint8 ph eye obj lights
      = Ok (Float64 (mkvec 0 0 0))
  | Some _, None =>
      compute_color get_l normal_at nan_to_uint8 ph eye obj lights
      = Raise (AttributeError "NoneType" "diffuse")
  | Some _, Some _ =>
      exists r g b,
        compute_color get_l normal_at nan_to_uint8 ph eye obj lights
        = Ok (UInt8 r g b) /\
        is_byte r /\ is_byte g /\ is_byte b
  end.
Proof.
  intros Hlights. unfold compute_color.
  destruct (normal_at obj ph) as [nh | ] eqn:Hn.
  - destruct (material obj) as [mtl | ] eqn:Hm.
    + destruct (compute_color_loop_returns ph eye obj (List.length lights)
                  lights nh mtl Hn Hm zeros) as [final Hfinal].
      destruct (mean_clip_uint8_bytes final (List.length lights))
        as (r & g & b & Heq & Hbytes).
      { destruct lights; [ contradiction | discriminate ]. }
      exists r, g, b. rewrite Hfinal, Heq. auto.
    + destruct lights as [ | light lights']; [ contradiction | ].
      cbn [compute_color_loop]. now rewrite Hn, Hm.
  - destruct lights as [ | light lights']; [ contradiction | ].
    cbn [compute_color_loop]. now rewrite Hn.
Qed.

(** With a light in the scene [compute_color] has three outcomes: the
    float triple of zeros when the normal is undefined; [AttributeError]
    when the normal is defined and the object has no material; three bytes
    otherwise. *)
Theorem compute_color_outcomes (ph eye : vec3) (obj : Object)
  (lights : list light.Light) :
  lights <> [] ->
  match normal_at obj ph, material obj with
  | None, _ =>
      compute_color get_l normal_at nan_to_uint8 ph eye obj lights
      = Ok (Float64 (mkvec 0 0 0))
  | Some _, None =>
      compute_color get_l normal_at nan_to_uint8 ph eye obj lights
      = Raise (AttributeError "NoneType" "diffuse")
  | Some _, Some _ =>
      exists r g b,
        compute_color get_l normal_at nan_to_uint8 ph eye obj lights
        = Ok (UInt8 r g b) /\
        is_byte r /\ is_byte g /\ is_byte b
  end.
Proof. exact (compute_color_cases ph eye obj lights). Qed.

Lemma light_colour_unknown_tag (obj : Object) (mtl : Material)
  (nh l eye : vec3) :
  (forall ty, In ty known_tags -> shader_type obj <> Some ty) ->
  light_colour obj mtl nh l eye = zeros.
Proof.
  intros Htag. unfold light_colour. cbv zeta.
  assert (H : forall ty, In ty known_tags ->
                match shader_type obj with
                | Some s => String.eqb s ty
                | None => false
                end = false).
  { intros ty Hty. specialize (Htag ty Hty).
    destruct (shader_type obj) as [s | ]; [ | reflexivity ].
    apply String.eqb_neq. congruence. }
  rewrite !H; [ reflexivity | | | | ]; unfold known_tags; simpl; auto.
Qed.

Lemma mean_clip_uint8_zeros (len_lights : nat) :
  len_lights <> O ->
  mean_clip_uint8 nan_to_uint8 zeros len_lights = UInt8 0 0 0.
Proof.
  intros Hlen. destruct len_lights as [ | k]; [ contradiction | ].
  unfold mean_clip_uint8, astype_uint8, clip, zeros, vfill, vdivs.
  cbv [vmap vx vy vz].
  assert (H : Rmin (Rmax (0 / INR (S k)) 0) constants.MAX_COLOR_VALUE = 0).
  { unfold Rdiv. rewrite Rmult_0_l. unfold constants.MAX_COLOR_VALUE.
    rewrite Rmax_left by lra. apply Rmin_left. lra. }
  rewrite H. now rewrite (trunc_IZR 0).
Qed.

(** An object whose shader tag is none of the four known ones is shaded
    black, whatever the lights. *)
Theorem compute_color_unknown_tag (ph eye : vec3) (obj : Object)
  (lights : list light.Light) (nh : vec3) (mtl : Material) :
  lights <> [] ->
  normal_at obj ph = Some nh -> material obj = Some mtl ->
  (forall ty, In ty known_tags -> shader_type obj <> Some ty) ->
  compute_color get_l normal_at nan_to_uint8 ph eye obj lights
  = Ok (UInt8 0 0 0).
Proof.
  intros Hlights Hn Hm Htag. unfold compute_color.
  assert (Hloop : forall ls len,
             compute_color_loop get_l normal_at nan_to_uint8 ph eye obj len
               ls zeros
             = Ok (mean_clip_uint8 nan_to_uint8 zeros len)).
  { induction ls as [ | light ls IH]; intros len; [ reflexivity | ].
    rewrite (compute_color_loop_step _ _ _ _ _ _ _ _ _ Hn Hm).
    rewrite light_colour_unknown_tag by assumption.
    replace (zeros + zeros)%V with zeros
      by (apply vec3_eq; vec_simpl; ring).
    apply IH. }
  rewrite Hloop, mean_clip_uint8_zeros; [ reflexivity | ].
  destruct lights; [ contradiction | discriminate ].
Qed.

(** Under the tag [diffuse_light] the coefficient of [[0, 1]] is averaged
    and cast to a byte as it is: with unit normals and unit light vectors
    the three channels are equal and are 0 or 1. *)
Theorem compute_color_diffuse_light (ph eye : vec3) (obj : Object)
  (lights : list light.Light) (nh : vec3) (mtl : Material) :
  lights <> [] ->
  normal_at obj ph = Some nh -> material obj = Some mtl ->
  shader_type obj = Some shaders.TYPE_DIFFUSE_LIGHT ->
  unit_vector nh ->
  (forall light, In light lights -> unit_vector (get_l light ph)) ->
  exists c,
    compute_color get_l normal_at nan_to_uint8 ph eye obj lights
    = Ok (UInt8 c c c) /\
    (c = 0 \/ c = 1)%Z.
Proof.
  intros Hlights Hn Hm Htag Hunit Hl. unfold compute_color.
  assert (Hcol : forall l, light_colour obj mtl nh l eye
                           = vfill (shaders.diffuse_light nh l)).
  { intros l. unfold light_colour. rewrite Htag. cbv zeta.
    now rewrite String.eqb_refl. }
  assert (Hloop : forall ls len a m,
             (forall light, In light ls -> unit_vector (get_l light ph)) ->
             0 <= a <= INR m ->
             exists a',
               compute_color_loop get_l normal_at nan_to_uint8 ph eye obj len
                 ls (vfill a)
               = Ok (mean_clip_uint8 nan_to_uint8 (vfill a') len) /\
               0 <= a' <= INR (m + List.length ls)).
  { induction ls as [ | light ls IH]; intros len a m Hls Ha.
    - exists a. split; [ reflexivity | ].
      cbn [List.length]. now rewrite Nat.add_0_r.
    - rewrite (compute_color_loop_step _ _ _ _ _ _ _ _ _ Hn Hm), Hcol.
      change (vfill a + vfill (shaders.diffuse_light nh (get_l light ph)))%V
        with (vfill (a + shaders.diffuse_light nh (get_l light ph))).
      assert (Hd : 0 <= shaders.diffuse_light nh (get_l light ph) <= 1).
      { apply diffuse_coefficient_range; [ assumption | ].
        apply Hls. now left. }
      destruct (IH len (a + shaders.diffuse_light nh (get_l light ph))
                  (S m)) as [a' [Heq Ha']].
      + intros l' Hl'. apply Hls. now right.
      + rewrite S_INR. lra.
      + exists a'. split; [ exact Heq | ].
        cbn [List.length]. now rewrite Nat.add_succ_r. }
  destruct (Hloop lights (List.length lights) 0 O Hl) as [a' [Heq Ha']].
  { simpl. lra. }
  change 0 with (vx zeros) in Heq at 1. change (vfill (vx zeros)) with zeros in Heq.
  rewrite Heq. cbn [Nat.add] in Ha'.
  destruct lights as [ | light lights']; [ contradiction | ].
  set (k := List.length (light :: lights')) in *.
  assert (Hk : 0 < INR k) by (apply lt_0_INR; unfold k; simpl; lia).
  unfold mean_clip_uint8. unfold k at 1. cbn [List.length]. fold k.
  unfold astype_uint8, clip, vdivs, vfill. cbv [vmap vx vy vz].
  set (x := Rmin (Rmax (a' / INR k) 0) constants.MAX_COLOR_VALUE).
  assert (Hx : 0 <= x <= 1).
  { assert (Hq : 0 <= a' / INR k <= 1).
    { split.
      - apply Rmult_le_pos; [ lra | left; now apply Rinv_0_lt_compat ].
      - apply (Rmult_le_reg_r (INR k)); [ assumption | ].
        unfold Rdiv. rewrite Rmult_assoc, Rinv_l by lra. lra. }
    unfold x, constants.MAX_COLOR_VALUE, Rmin, Rmax.
    destruct (Rle_dec (a' / INR k) 0); destruct (Rle_dec _ 255); lra. }
  exists (trunc x). split; [ reflexivity | ].
  assert (Ht : (0 <= trunc x <= 1)%Z) by (apply trunc_range; lra).
  lia.
Qed.

End Shading.

(** ** raytrace.py: compositing once [shaders.hard_shadow] is bound *)

Section Compositing.

Variable get_l : light.Light -> vec3 -> vec3.
Variable get_dist : light.Light -> vec3 -> R.
Variable normal_at : Object -> vec3 -> option vec3.
Variable obj_eqb : Object -> Object -> bool.
Variable nan_to_uint8 : Z.
Variable hard_shadow : vec3 -> list Object -> vec3 -> R -> vec3.

Lemma compute_shadow_returns (ph : vec3) (objects : list Object)
  (lights : list light.Light) :
  lights <> [] ->
  exists r g b,
    compute_shadow get_l get_dist (Some hard_shadow) nan_to_uint8 ph objects
      lights
    = Ok (UInt8 r g b) /\
    is_byte r /\ is_byte g /\ is_byte b.
Proof.
  intros Hlights. unfold compute_shadow.
  assert (Hloop : forall ls len final_shadow,
             exists final,
               compute_shadow_loop get_l get_dist (Some hard_shadow)
                 nan_to_uint8 ph objects len ls final_shadow
               = Ok (mean_clip_uint8 nan_to_uint8 final len)).
  { induction ls as [ | light ls IH]; intros len final_shadow.
    - exists final_shadow. reflexivity.
    - cbn [compute_shadow_loop getattr bind]. apply IH. }
  destruct (Hloop lights (List.length lights) zeros) as [final Hfinal].
  destruct (mean_clip_uint8_bytes nan_to_uint8 final (List.length lights))
    as (r & g & b & Heq & Hbytes).
  { destruct lights; [ contradiction | discriminate ]. }
  exists r, g, b. rewrite Hfinal, Heq. auto.
Qed.

(** One channel of the product of [raytrace]: a byte of colour times a
    byte of shadow over 255, rounded and cast, is a byte that is not above
    the colour. *)
Lemma attenuated_channel (c s : Z) :
  is_byte c -> is_byte s ->
  (0 <= trunc (round_half_even (IZR c * (IZR s / constants.MAX_COLOR_VALUE)))
   <= c)%Z.
Proof.
  unfold is_byte, constants.MAX_COLOR_VALUE. intros Hc Hs.
  assert (Hc0 : 0 <= IZR c) by (apply IZR_le; lia).
  assert (Hs0 : 0 <= IZR s) by (apply IZR_le; lia).
  assert (Hs1 : IZR s <= 255) by (apply IZR_le; lia).
  destruct (round_half_even_range (IZR c * (IZR s / 255)) c)
    as (k & Hk & Hrange).
  { split; [ apply Rmult_le_pos; lra | ]. nra. }
  now rewrite Hk, trunc_IZR.
Qed.

Lemma raytrace_hit_value (ray : Ray) (camera_pos : vec3)
  (objects : list Object) (lights : list light.Light) (tmin : R)
  (obj_h : Object) (color : ndarray) :
  lights <> [] ->
  closest ray objects = (Fin tmin, Some obj_h) ->
  compute_color get_l normal_at nan_to_uint8 (at_ ray tmin)
    (utils.normalize (camera_pos - at_ ray tmin)%V) obj_h lights
  = Ok color ->
  exists r g b,
    raytrace.raytrace get_l get_dist normal_at obj_eqb (Some hard_shadow)
      nan_to_uint8 ray camera_pos objects lights
    = Ok (UInt8 r g b) /\
    is_byte r /\ is_byte g /\ is_byte b /\
    IZR r <= vx (astype_float color) /\
    IZR g <= vy (astype_float color) /\
    IZR b <= vz (astype_float color).
Proof.
  intros Hlights Hc Hcolor.
  assert (Hbytes : exists cr cg cb,
             astype_float color = mkvec (IZR cr) (IZR cg) (IZR cb) /\
             is_byte cr /\ is_byte cg /\ is_byte cb).
  { pose proof (compute_color_cases get_l normal_at nan_to_uint8
                  (at_ ray tmin)
                  (utils.normalize (camera_pos - at_ ray tmin)%V)
                  obj_h lights Hlights) as H.
    destruct (normal_at obj_h (at_ ray tmin)).
    - destruct (material obj_h).
      + destruct H as (r & g & b & Heq & Hb).
        rewrite Heq in Hcolor. injection Hcolor as <-.
        exists r, g, b. split; [ reflexivity | assumption ].
      + rewrite H in Hcolor. discriminate.
    - rewrite H in Hcolor. injection Hcolor as <-.
      exists 0%Z, 0%Z, 0%Z. unfold is_byte.
      split; [ reflexivity | lia ]. }
  destruct Hbytes as (cr & cg & cb & Hfloat & Hcr & Hcg & Hcb).
  unfold raytrace.raytrace. rewrite Hc, Hcolor. cbn [bind].
  destruct (compute_shadow_returns (at_ ray tmin)
              (remove obj_eqb obj_h objects) lights Hlights)
    as (sr & sg & sb & Hshadow & Hsr & Hsg & Hsb).
  rewrite Hshadow. cbn [bind]. rewrite Hfloat.
  unfold astype_uint8. cbn [astype_float].
  cbv [vmap vmul vzip vdivs vx vy vz].
  pose proof (attenuated_channel cr sr Hcr Hsr) as Hr.
  pose proof (attenuated_channel cg sg Hcg Hsg) as Hg.
  pose proof (attenuated_channel cb sb Hcb Hsb) as Hb.
  do 3 eexists. split; [ reflexivity | ].
  unfold is_byte in *.
  repeat match goal with
         | |- _ /\ _ => split
         end; try lia; apply IZR_le; lia.
Qed.

(** With [hard_shadow] bound and a light in the scene, a hit whose direct
    colour is computed gives three bytes, none of them above the same
    channel of the direct colour: the shadow only darkens. *)
Theorem raytrace_shadow_darkens (ray : Ray) (camera_pos : vec3)
  (objects : list Object) (lights : list light.Light) (tmin : R)
  (obj_h : Object) (color : ndarray) :
  lights <> [] ->
  closest ray objects = (Fin tmin, Some obj_h) ->
  compute_color get_l normal_at nan_to_uint8 (at_ ray tmin)
    (utils.normalize (camera_pos - at_ ray tmin)%V) obj_h lights
  = Ok color ->
  exists r g b,
    raytrace.raytrace get_l get_dist normal_at obj_eqb (Some hard_shadow)
      nan_to_uint8 ray camera_pos objects lights
    = Ok (UInt8 r g b) /\
    is_byte r /\ is_byte g /\ is_byte b /\
    IZR r <= vx (astype_float color) /\
    IZR g <= vy (astype_float color) /\
    IZR b <= vz (astype_float color).
Proof. apply raytrace_hit_value. Qed.

(** With [hard_shadow] bound and a light in the scene, whatever [raytrace]
    returns is three bytes, and the only exception it can raise is the
    [AttributeError] of an object without material. *)
Theorem raytrace_bytes_or_no_material (ray : Ray) (camera_pos : vec3)
  (objects : list Object) (lights : list light.Light) :
  lights <> [] ->
  match
    raytrace.raytrace get_l get_dist normal_at obj_eqb (Some hard_shadow)
      nan_to_uint8 ray camera_pos objects lights
  with
  | Ok out => exists r g b, out = UInt8 r g b /\
                            is_byte r /\ is_byte g /\ is_byte b
  | Raise e => e = AttributeError "NoneType" "diffuse"
  end.
Proof.
  intros Hlights.
  pose proof (closest_is_closest_of ray objects) as Hinv.
  destruct (closest ray objects) as [[tmin | ] [obj_h | ]] eqn:Hc;
    simpl in Hinv; try contradiction.
  - destruct (compute_color get_l normal_at nan_to_uint8 (at_ ray tmin)
                (utils.normalize (camera_pos - at_ ray tmin)%V) obj_h lights)
      as [color | e] eqn:Hcolor.
    + destruct (raytrace_hit_value ray camera_pos objects lights tmin obj_h
                  color Hlights Hc Hcolor)
        as (r & g & b & Heq & Hr & Hg & Hb & _).
      rewrite Heq. exists r, g, b. auto.
    + unfold raytrace.raytrace. rewrite Hc, Hcolor. cbn [bind].
      pose proof (compute_color_cases get_l normal_at nan_to_uint8
                    (at_ ray tmin)
                    (utils.normalize (camera_pos - at_ ray tmin)%V)
                    obj_h lights Hlights) as H.
      destruct (normal_at obj_h (at_ ray tmin)).
      * destruct (material obj_h).
        -- destruct H as (r & g & b & Heq & _). congruence.
        -- congruence.
      * congruence.
  - unfold raytrace.raytrace. rewrite Hc.
    exists 0%Z, 0%Z, 0%Z. unfold is_byte. split; [ reflexivity | lia ].
Qed.

(** [list.remove] drops the first element that equals [x]. *)
Lemma remove_first_equal (x : Object) (before after : list Object) :
  obj_eqb x x = true ->
  (forall o, In o before -> obj_eqb o x = false) ->
  remove obj_eqb x (before ++ x :: after) = before ++ after.
Proof.
  intros Hrefl. induction before as [ | y before IH]; intros Hbefore.
  - cbn [app remove]. now rewrite Hrefl.
  - cbn [app remove]. rewrite (Hbefore y) by now left.
    f_equal. apply IH. intros o Ho. apply Hbefore. now right.
Qed.

(** When [==] tells the hit object from every other object of the scene,
    the objects checked for shadow are all the others, in their order: the
    hit object alone is taken out. *)
Theorem shadow_candidates (ray : Ray) (objects : list Object) (tmin : R)
  (obj_h : Object) :
  closest ray objects = (Fin tmin, Some obj_h) ->
  obj_eqb obj_h obj_h = true ->
  (forall o, In o objects -> o <> obj_h -> obj_eqb o obj_h = false) ->
  exists before after,
    objects = before ++ obj_h :: after /\
    ~ In obj_h before /\
    remove obj_eqb obj_h objects = before ++ after.
Proof.
  intros Hc Hrefl Hother.
  pose proof (closest_is_closest_of ray objects) as Hinv.
  rewrite Hc in Hinv. simpl in Hinv.
  destruct Hinv as (Hpos & Hh & _ & before & after & Hobjs & Hfirst).
  assert (Hnot : ~ In obj_h before).
  { intros Hin. specialize (Hfirst obj_h Hin). lra. }
  exists before, after. repeat split; try assumption.
  rewrite Hobjs. apply remove_first_equal; [ assumption | ].
  intros o Ho. apply Hother.
  - rewrite Hobjs. apply in_or_app. now left.
  - intros ->. contradiction.
Qed.

End Compositing.

(** ** sky.py: shadow test and clamping *)

(** In a sky whose radius and atmosphere height are not negative the test
    [0 < t_to_planet < t_to_atmosphere] never holds: along any ray the
    near root on the atmosphere shell is not beyond a positive near root
    on the planet, so no sample is ever skipped as shadowed. *)
Theorem planet_never_shadows (self : SkyDome) (sample_point : vec3) :
  0 <= radius self -> 0 <= atmosphere_height self ->
  let sun_ray := mkRay sample_point (sun_direction self) in
  in_shadow self sample_point = false /\
  ~ (0 < intersect sun_ray (planet_obj self)
     < intersect sun_ray (atmosphere_obj self)).
Proof.
  intros Hr Hh sun_ray.
  pose proof (never_in_shadow self sample_point Hr Hh) as H.
  split; [ exact H | ].
  unfold in_shadow in H. fold sun_ray in H. intros [H1 H2].
  apply ltb_spec in H1, H2. rewrite H1, H2 in H. discriminate.
Qed.

Lemma planet_never_shadows_witness :
  in_shadow default_sky (mkvec 0 0 0) = false.
Proof.
  apply (planet_never_shadows default_sky (mkvec 0 0 0));
    apply default_sky_nonneg.
Defined.

Lemma light_at_ray_value_clamped
  (utils_distance : option (vec3 -> vec3 -> R)) (self : SkyDome) (r : Ray)
  (view_samples : nat) (g g' : rng) (light : vec3) :
  light_at_ray utils_distance self r view_samples g = Ok (light, g') ->
  0 <= vx light <= 1 /\ 0 <= vy light <= 1 /\ 0 <= vz light <= 1.
Proof.
  unfold light_at_ray, mbind at 1, random_sample. unfold mbind.
  destruct (for_range _ _ _ _) as [[acc g2] | e]; [ | discriminate ].
  unfold ret. intros H. injection H as <- _.
  unfold clip. cbv [vmap vx vy vz].
  repeat split; apply clip_range; lra.
Qed.

(** Whatever [light_at_ray] returns has its three channels in [[0, 1]],
    provided the radius and the atmosphere height it divides by are not
    zero (numpy would divide to NaN, which [np.clip] keeps). *)
Theorem light_at_ray_clamped
  (utils_distance : option (vec3 -> vec3 -> R)) (self : SkyDome) (r : Ray)
  (view_samples : nat) (g g' : rng) (light : vec3) :
  radius self <> 0 -> atmosphere_height self <> 0 ->
  light_at_ray utils_distance self r view_samples g = Ok (light, g') ->
  0 <= vx light <= 1 /\ 0 <= vy light <= 1 /\ 0 <= vz light <= 1.
Proof. intros _ _. apply light_at_ray_value_clamped. Qed.

Lemma zero_light_clamped (c d : R) : Rmin (Rmax (0 * c / d) 0) 1 = 0.
Proof.
  unfold Rdiv. rewrite !Rmult_0_l.
  rewrite Rmax_left by lra. apply Rmin_left. lra.
Qed.

Lemma light_at_ray_no_sample
  (utils_distance : option (vec3 -> vec3 -> R)) (self : SkyDome) (r : Ray)
  (g : rng) :
  light_at_ray utils_distance self r 0 g = Ok (zeros, g).
Proof.
  unfold light_at_ray, mbind, random_sample, range, ret. cbn [seq for_range].
  unfold ret. do 2 f_equal.
  apply vec3_eq; unfold clip, zeros, vfill, SCATTERING_COEFFICIENTS;
    vec_simpl; apply zero_light_clamped.
Qed.

(** Asked for no view sample, [in_scattering] and [light_at_ray] return the
    zero light and draw nothing from the generator, whether
    [utils.distance] is bound or not and whatever the ray. *)
Theorem sky_no_view_sample
  (utils_distance : option (vec3 -> vec3 -> R)) (self : SkyDome) (r : Ray)
  (g : rng) :
  radius self <> 0 ->
  in_scattering utils_distance self r 0 g = Ok (zeros, g) /\
  light_at_ray utils_distance self r 0 g = Ok (zeros, g).
Proof.
  intros _. split; [ | apply light_at_ray_no_sample ].
  unfold in_scattering, mbind, random_sample, range, ret.
  cbn [seq for_range]. unfold ret. do 2 f_equal.
  apply vec3_eq; unfold zeros, vfill; vec_simpl; ring.
Qed.

Lemma default_sky_radius : radius default_sky <> 0.
Proof. unfold default_sky, EARTH_RADIUS; simpl. lra. Qed.

Lemma sky_no_view_sample_witness :
  light_at_ray utils.distance default_sky ray_along_z 0 no_jitter
  = Ok (zeros, no_jitter).
Proof.
  apply (sky_no_view_sample utils.distance default_sky ray_along_z no_jitter).
  exact default_sky_radius.
Defined.

(** ** sky.py: the draws of the atmosphere once [utils.distance] is bound *)

(** A loop whose every turn returns and moves the generator [k] draws on
    returns and moves it [k] draws on per turn. *)
Lemma for_range_advances {S : Type} (body : nat -> S -> M S) (k : nat) :
  (forall i s g, exists s', body i s g = Ok (s', fun j => g (k + j)%nat)) ->
  forall indices s g,
  exists s' g',
    for_range indices body s g = Ok (s', g') /\
    forall j, g' j = g (k * List.length indices + j)%nat.
Proof.
  intros Hbody. induction indices as [ | i indices IH]; intros s g.
  - exists s, g. split; [ reflexivity | ].
    intros j. cbn [List.length]. f_equal. lia.
  - cbn [for_range]. unfold mbind at 1.
    destruct (Hbody i s g) as [s1 Hs1]. rewrite Hs1.
    destruct (IH s1 (fun j => g (k + j)%nat)) as (s' & g' & Heq & Hg').
    exists s', g'. split; [ exact Heq | ].
    intros j. rewrite Hg'. cbn [List.length]. f_equal. lia.
Qed.

Section Draws.

Variable distance_fn : vec3 -> vec3 -> R.
Variable self : SkyDome.

Hypothesis radius_pos : 0 < radius self.
Hypothesis height_pos : 0 < atmosphere_height self.

Let utils_distance := Some distance_fn.

Lemma out_scattering_returns (p direction : vec3) (distance : R)
  (num_samples : nat) (g : rng) :
  exists v,
    out_scattering utils_distance self p direction distance num_samples g
    = Ok (v, fun i => g (num_samples + i)%nat).
Proof.
  unfold out_scattering, mbind.
  destruct (optical_depth_returns distance_fn self p direction distance
              num_samples g) as [v Hv].
  fold utils_distance in Hv. rewrite Hv. eexists. reflexivity.
Qed.

Lemma light_at_ray_sample_advances (r : Ray) (view_samples : nat)
  (randoms : list R) (dist_to_atmosphere : R) (i : nat) (light : vec3)
  (g : rng) :
  exists light',
    light_at_ray_sample utils_distance self r view_samples randoms
      dist_to_atmosphere i light g
    = Ok (light', fun j => g (20 + j)%nat).
Proof.
  destruct (light_at_ray_sample_eval distance_fn self r view_samples randoms
              dist_to_atmosphere i light g) as (s & v & d & g1 & g2 & H).
  { apply never_in_shadow; lra. }
  destruct H as (Hsun & Hview & _ & Hstep).
  fold utils_distance in Hsun, Hview, Hstep.
  set (distance := dist_to_atmosphere / INR view_samples
                   * (INR i + nth i randoms 0)) in *.
  set (sample_point := at_ r distance) in *.
  set (sun_ray := mkRay sample_point (sun_direction self)) in *.
  destruct (optical_depth_returns distance_fn self (pr sun_ray) (nr sun_ray)
              (intersect sun_ray (atmosphere_obj self))
              OPTICAL_DEPTH_SAMPLES g) as [s' Hsun'].
  fold utils_distance in Hsun'.
  pose proof (eq_trans (eq_sym Hsun') Hsun) as Es.
  injection Es as _ <-.
  destruct (optical_depth_returns distance_fn self sample_point
              (vneg (nr r)) distance OPTICAL_DEPTH_SAMPLES
              (fun i => g (OPTICAL_DEPTH_SAMPLES + i)%nat)) as [v' Hview'].
  fold utils_distance in Hview'.
  pose proof (eq_trans (eq_sym Hview') Hview) as Ev.
  injection Ev as _ <-.
  eexists. exact Hstep.
Qed.

Lemma in_scattering_sample_advances (r : Ray) (view_samples : nat)
  (randoms : list R) (dist_to_atmosphere : R) (i : nat)
  (transmittance : vec3) (g : rng) :
  exists transmittance',
    in_scattering_sample utils_distance self r view_samples randoms
      dist_to_atmosphere i transmittance g
    = Ok (transmittance', fun j => g (20 + j)%nat).
Proof.
  unfold in_scattering_sample.
  rewrite never_in_shadow by lra.
  set (distance := dist_to_atmosphere / INR view_samples
                   * (INR i + nth i randoms 0)).
  set (sample_point := at_ r distance).
  set (sun_ray := mkRay sample_point (sun_direction self)).
  unfold mbind at 1.
  destruct (out_scattering_returns (pr sun_ray) (nr sun_ray)
              (intersect sun_ray (atmosphere_obj self))
              OPTICAL_DEPTH_SAMPLES g) as [out_sun Hsun].
  rewrite Hsun. unfold mbind at 1.
  destruct (out_scattering_returns sample_point (vneg (nr r)) distance
              OPTICAL_DEPTH_SAMPLES
              (fun i => g (OPTICAL_DEPTH_SAMPLES + i)%nat))
    as [out_view Hview].
  rewrite Hview. unfold mbind, lift, ret.
  unfold utils_distance. rewrite density_at_point_value.
  eexists. reflexivity.
Qed.

Lemma light_at_ray_total (r : Ray) (view_samples : nat) (g : rng) :
  exists light g',
    light_at_ray utils_distance self r view_samples g = Ok (light, g') /\
    forall j, g' j = g (21 * view_samples + j)%nat.
Proof.
  unfold light_at_ray, mbind at 1, random_sample. unfold mbind at 1.
  destruct (for_range_advances
              (light_at_ray_sample utils_distance self r view_samples
                 (map g (seq 0 view_samples))
                 (intersect r (atmosphere_obj self)))
              20
              (light_at_ray_sample_advances r view_samples _ _)
              (range view_samples) zeros
              (fun i => g (view_samples + i)%nat))
    as (acc & g' & Heq & Hg').
  rewrite Heq. unfold ret. do 2 eexists. split; [ reflexivity | ].
  intros j. rewrite Hg'. unfold range. rewrite length_seq. f_equal. lia.
Qed.

Lemma in_scattering_total (r : Ray) (view_samples : nat) (g : rng) :
  exists light g',
    in_scattering utils_distance self r view_samples g = Ok (light, g') /\
    forall j, g' j = g (21 * view_samples + j)%nat.
Proof.
  unfold in_scattering, mbind at 1, random_sample. unfold mbind at 1.
  destruct (for_range_advances
              (in_scattering_sample utils_distance self r view_samples
                 (map g (seq 0 view_samples))
                 (intersect r (atmosphere_obj self)))
              20
              (in_scattering_sample_advances r view_samples _ _)
              (range view_samples) zeros
              (fun i => g (view_samples + i)%nat))
    as (acc & g' & Heq & Hg').
  rewrite Heq. unfold ret. do 2 eexists. split; [ reflexivity | ].
  intros j. rewrite Hg'. unfold range. rewrite length_seq. f_equal. lia.
Qed.

(** With [utils.distance] bound and a sky of positive radius and
    atmosphere height, [in_scattering] and [light_at_ray] return for every
    ray and every number of view samples, and each call takes exactly
    [21 * view_samples] draws from the generator: one per view sample and
    ten for each of its two optical depths. *)
Theorem sky_draws (r : Ray) (view_samples : nat) (g : rng) :
  (exists light g',
     in_scattering utils_distance self r view_samples g = Ok (light, g') /\
     forall j, g' j = g (21 * view_samples + j)%nat) /\
  (exists light g',
     light_at_ray utils_distance self r view_samples g = Ok (light, g') /\
     forall j, g' j = g (21 * view_samples + j)%nat).
Proof.
  split; [ apply in_scattering_total | apply light_at_ray_total ].
Qed.

(** Along a segment of length zero the optical depth is zero, whatever the
    density and the number of samples (the height of the atmosphere, by
    which the density divides, not being zero). *)
Theorem optical_depth_zero_length (p direction : vec3) (num_samples : nat)
  (g : rng) :
  atmosphere_height self <> 0 ->
  optical_depth utils_distance self p direction 0 num_samples g
  = Ok (0, fun i => g (num_samples + i)%nat).
Proof.
  intros _. unfold optical_depth, mbind at 1, random_sample.
  assert (Hloop : forall indices g0,
             for_range indices
               (optical_depth_sample utils_distance self p direction 0
                  num_samples (map g (seq 0 num_samples)))
               0 g0
             = Ok (0, g0)).
  { induction indices as [ | i indices IH]; intros g0; [ reflexivity | ].
    cbn [for_range]. unfold mbind at 1.
    unfold optical_depth_sample, mbind, lift, ret.
    unfold utils_distance. rewrite density_at_point_value.
    match goal with
    | |- for_range _ _ ?acc _ = _ => replace acc with 0
    end.
    - apply IH.
    - unfold Rdiv. ring. }
  apply Hloop.
Qed.

End Draws.

(** ** Scenes for the properties above *)

(** A sphere of the scene with a blue material and a shader tag, a normal
    and a light vector that face the camera everywhere, a shadow function
    that finds no occluder, and an [==] that holds of every pair. *)
Definition blue : Material := mkMaterial (mkvec 0 0 255).
Definition shaded_sphere (tag : option string) : Object :=
  ObjSphere (mkSphere (mkvec 0 0 100) (Some blue) tag 25).
Definition facing_normal (obj : Object) (ph : vec3) : option vec3 :=
  Some (mkvec 0 0 (-1)).
Definition light_in_front (l : light.Light) (ph : vec3) : vec3 :=
  mkvec 0 0 (-1).
Definition no_occluder (ph : vec3) (objects : list Object) (l : vec3)
  (dist_l : R) : vec3 := vfill 255.
Definition always_equal (a b : Object) : bool := true.

(** A shadow function that lets a fifth of every light through, a wall
    behind the sphere that faces the camera, and an [==] that holds of two
    objects of the same class. *)
Definition fifth_shadow (ph : vec3) (objects : list Object) (l : vec3)
  (dist_l : R) : vec3 := vfill 51.
Definition back_wall : Plane :=
  mkPlane (mkvec 0 0 200) None None (mkvec 0 0 (-1)).
Definition same_class (a b : Object) : bool :=
  match a, b with
  | ObjSphere _, ObjSphere _ | ObjHollowSphere _, ObjHollowSphere _
  | ObjPlane _, ObjPlane _ | ObjTetrahedron _, ObjTetrahedron _
  | ObjTriangle _, ObjTriangle _ | ObjOther _ _, ObjOther _ _ => true
  | _, _ => false
  end.

Lemma unit_sky_positive :
  0 < radius unit_sky /\ 0 < atmosphere_height unit_sky.
Proof. simpl. lra. Qed.

Lemma density_at_point_profile_witness :
  exists dp dq,
    density_at_point (Some euclidean) unit_sky (at_ ray_inward 3) = Ok dp /\
    density_at_point (Some euclidean) unit_sky (at_ ray_inward 2) = Ok dq /\
    dq < dp.
Proof.
  destruct (density_at_point_profile euclidean unit_sky
              (at_ ray_inward 3) (at_ ray_inward 2))
    as (dp & dq & Hp & Hq & _ & _ & Hlt).
  { simpl. lra. }
  exists dp, dq. repeat split; try assumption.
  apply Hlt; rewrite ?ray_inward_height by lra; lra.
Defined.

Lemma closest_shaded_sphere (tag : option string) :
  closest ray_along_z [shaded_sphere tag]
  = (Fin 75, Some (shaded_sphere tag)).
Proof.
  unfold closest, shaded_sphere. cbn [fold_left]. unfold closer.
  cbn [intersect].
  assert (H : intersect_sphere ray_along_z
                (mkSphere (mkvec 0 0 100) (Some blue) tag 25) = 75).
  { unfold intersect_sphere, ray_along_z; vec_simpl.
    repeat decide_cmp. cbn [orb]. sqrt_is 25. lra. }
  rewrite H. cbn [lt_ext]. rewrite andb_true_r.
  assert (Hp : ltb 0 75 = true) by (apply ltb_spec; lra).
  now rewrite Hp.
Qed.

Lemma compute_color_outcomes_witness :
  exists r g b,
    compute_color light_in_front facing_normal 0 (mkvec 0 0 75)
      (mkvec 0 0 (-1)) (shaded_sphere (Some shaders.TYPE_DIFF_SPECULAR))
      [spot_light]
    = Ok (UInt8 r g b) /\
    is_byte r /\ is_byte g /\ is_byte b.
Proof.
  apply (compute_color_outcomes light_in_front facing_normal 0 (mkvec 0 0 75)
           (mkvec 0 0 (-1)) (shaded_sphere (Some shaders.TYPE_DIFF_SPECULAR))
           [spot_light]).
  discriminate.
Defined.

Lemma compute_color_unknown_tag_witness :
  compute_color light_in_front facing_normal 0 (mkvec 0 0 75)
    (mkvec 0 0 (-1)) (shaded_sphere (Some "phong"%string)) [spot_light]
  = Ok (UInt8 0 0 0).
Proof.
  apply (compute_color_unknown_tag light_in_front facing_normal 0
           (mkvec 0 0 75) (mkvec 0 0 (-1))
           (shaded_sphere (Some "phong"%string)) [spot_light]
           (mkvec 0 0 (-1)) blue).
  - discriminate.
  - reflexivity.
  - reflexivity.
  - intros ty Hty. simpl in Hty.
    destruct Hty as [<- | [<- | [<- | [<- | []]]]]; discriminate.
Defined.

Lemma compute_color_diffuse_light_witness :
  exists c,
    compute_color light_in_front facing_normal 0 (mkvec 0 0 75)
      (mkvec 0 0 (-1)) (shaded_sphere (Some shaders.TYPE_DIFFUSE_LIGHT))
      [spot_light; spot_light]
    = Ok (UInt8 c c c) /\
    (c = 0 \/ c = 1)%Z.
Proof.
  apply (compute_color_diffuse_light light_in_front facing_normal 0
           (mkvec 0 0 75) (mkvec 0 0 (-1))
           (shaded_sphere (Some shaders.TYPE_DIFFUSE_LIGHT))
           [spot_light; spot_light] (mkvec 0 0 (-1)) blue).
  - discriminate.
  - reflexivity.
  - reflexivity.
  - reflexivity.
  - unfold unit_vector; vec_simpl; lra.
  - intros light _. unfold unit_vector, light_in_front; vec_simpl; lra.
Defined.

Lemma raytrace_bytes_or_no_material_witness :
  match
    raytrace.raytrace light_in_front light_get_dist undefined_normal
      always_equal (Some no_occluder) 0 ray_along_z (mkvec 0 0 0)
      scene_objects [spot_light]
  with
  | Ok out => exists r g b, out = UInt8 r g b /\
                            is_byte r /\ is_byte g /\ is_byte b
  | Raise e => e = AttributeError "NoneType" "diffuse"
  end.
Proof.
  apply (raytrace_bytes_or_no_material light_in_front light_get_dist
           undefined_normal always_equal 0 no_occluder ray_along_z
           (mkvec 0 0 0) scene_objects [spot_light]).
  discriminate.
Defined.

Lemma round_half_even_IZR (k : Z) : round_half_even (IZR k) = IZR k.
Proof.
  unfold round_half_even. change (Int_part (IZR k)) with (trunc (IZR k)).
  rewrite trunc_IZR. replace (IZR k - IZR k) with 0 by ring.
  assert (H : ltb 0 (1 / 2) = true) by (apply ltb_spec; lra).
  now rewrite H.
Qed.

(** The byte that the tail of [compute_color] and [compute_shadow] makes of
    a channel that sums to a whole number of the byte range over one
    light. *)
Lemma mean_clip_one_light (x : R) (k : Z) :
  (0 <= k <= 255)%Z -> x = IZR k ->
  trunc (Rmin (Rmax (x / INR 1) 0) constants.MAX_COLOR_VALUE) = k.
Proof.
  intros [H0 H255] ->. apply IZR_le in H0. apply IZR_le in H255.
  replace (Rmin (Rmax (IZR k / INR 1) 0) constants.MAX_COLOR_VALUE)
    with (IZR k); [ apply trunc_IZR | ].
  unfold constants.MAX_COLOR_VALUE, Rmin, Rmax. simpl INR.
  destruct (Rle_dec (IZR k / 1) 0); destruct (Rle_dec _ 255); lra.
Qed.

(** The direct colour of the blue sphere under the shader of the two
    colours, lit from the front: the light value of its material. *)
Lemma compute_color_blue_sphere (ph eye : vec3) :
  compute_color light_in_front facing_normal 0 ph eye
    (shaded_sphere (Some shaders.TYPE_DIFFUSE_COLORS)) [spot_light]
  = Ok (UInt8 0 0 240).
Proof.
  unfold compute_color. cbn [List.length].
  rewrite (compute_color_loop_step light_in_front facing_normal 0 ph eye
             (shaded_sphere (Some shaders.TYPE_DIFFUSE_COLORS)) _ _ _ _
             (mkvec 0 0 (-1)) blue eq_refl eq_refl).
  cbn [compute_color_loop]. unfold mean_clip_uint8, astype_uint8. do 2 f_equal.
  all: unfold light_colour, shaders.diffuse_colors, light_in_front, blue,
         DARK_VALUE, LIGHT_VALUE, clip;
       cbn [shader_type shaded_sphere sphere_shader_type String.eqb
            Ascii.eqb Bool.eqb shaders.TYPE_DIFFUSE_LIGHT
            shaders.TYPE_DIFFUSE_COLORS diffuse];
       vec_simpl;
       replace (0 * 0 + 0 * 0 + -1 * -1) with 1 by ring;
       replace (Rmax 0 1) with 1 by (unfold Rmax; destruct (Rle_dec 0 1); lra);
       apply mean_clip_one_light; [ lia | ];
       unfold constants.MAX_COLOR_VALUE; field.
Qed.

(** The shadow bytes under [fifth_shadow]. *)
Lemma compute_shadow_fifth (ph : vec3) (objects : list Object) :
  compute_shadow light_in_front light_get_dist (Some fifth_shadow) 0 ph
    objects [spot_light]
  = Ok (UInt8 51 51 51).
Proof.
  unfold compute_shadow. cbn [List.length compute_shadow_loop getattr bind].
  unfold mean_clip_uint8, astype_uint8, fifth_shadow, clip. do 2 f_equal.
  all: vec_simpl; apply mean_clip_one_light; [ lia | ring ].
Qed.

Lemma raytrace_shadow_darkens_witness :
  compute_color light_in_front facing_normal 0 (at_ ray_along_z 75)
    (utils.normalize (mkvec 0 0 0 - at_ ray_along_z 75)%V)
    (shaded_sphere (Some shaders.TYPE_DIFFUSE_COLORS)) [spot_light]
  = Ok (UInt8 0 0 240) /\
  raytrace.raytrace light_in_front light_get_dist facing_normal
    same_class (Some fifth_shadow) 0 ray_along_z (mkvec 0 0 0)
    [shaded_sphere (Some shaders.TYPE_DIFFUSE_COLORS)] [spot_light]
  = Ok (UInt8 0 0 48) /\
  exists r g b,
    raytrace.raytrace light_in_front light_get_dist facing_normal
      same_class (Some fifth_shadow) 0 ray_along_z (mkvec 0 0 0)
      [shaded_sphere (Some shaders.TYPE_DIFFUSE_COLORS)] [spot_light]
    = Ok (UInt8 r g b) /\
    is_byte r /\ is_byte g /\ is_byte b /\
    IZR r <= 0 /\ IZR g <= 0 /\ IZR b <= 240.
Proof.
  split; [ apply compute_color_blue_sphere | ]. split.
  - unfold raytrace.raytrace. rewrite closest_shaded_sphere.
    rewrite compute_color_blue_sphere. cbn [bind].
    rewrite compute_shadow_fifth. cbn [bind astype_float].
    unfold astype_uint8, constants.MAX_COLOR_VALUE. vec_simpl.
    replace (0 * (51 / 255)) with (IZR 0) by (simpl; lra).
    replace (240 * (51 / 255)) with (IZR 48) by (simpl; lra).
    now rewrite !round_half_even_IZR, !trunc_IZR.
  - apply (raytrace_shadow_darkens light_in_front light_get_dist
             facing_normal same_class 0 fifth_shadow ray_along_z
             (mkvec 0 0 0)
             [shaded_sphere (Some shaders.TYPE_DIFFUSE_COLORS)] [spot_light]
             75 (shaded_sphere (Some shaders.TYPE_DIFFUSE_COLORS))
             (UInt8 0 0 240)).
    + discriminate.
    + apply closest_shaded_sphere.
    + apply compute_color_blue_sphere.
Defined.

(** The sphere is the closest hit of the scene made of the plane, which
    the ray misses, the sphere, and the wall behind it. *)
Lemma closest_among_three :
  closest ray_along_z
    [ObjPlane scene_plane; shaded_sphere None; ObjPlane back_wall]
  = (Fin 75, Some (shaded_sphere None)).
Proof.
  assert (Hplane : intersect ray_along_z (ObjPlane scene_plane) = -1).
  { unfold intersect, intersect_plane, ray_along_z, scene_plane. vec_simpl.
    repeat decide_cmp. reflexivity. }
  assert (Hsphere : intersect ray_along_z (shaded_sphere None) = 75).
  { unfold shaded_sphere, intersect, intersect_sphere, ray_along_z.
    vec_simpl. repeat decide_cmp. cbn [orb]. sqrt_is 25. lra. }
  assert (Hwall : intersect ray_along_z (ObjPlane back_wall) = 200).
  { unfold intersect, intersect_plane, ray_along_z, back_wall. vec_simpl.
    repeat decide_cmp. field. }
  unfold closest. cbn [fold_left]. unfold closer.
  rewrite Hplane, Hsphere, Hwall.
  repeat (progress (cbn [andb lt_ext]; repeat decide_cmp)).
  reflexivity.
Qed.

Lemma shadow_candidates_witness :
  remove same_class (shaded_sphere None)
    [ObjPlane scene_plane; shaded_sphere None; ObjPlane back_wall]
  = [ObjPlane scene_plane; ObjPlane back_wall] /\
  exists before after,
    [ObjPlane scene_plane; shaded_sphere None; ObjPlane back_wall]
    = before ++ shaded_sphere None :: after /\
    ~ In (shaded_sphere None) before /\
    remove same_class (shaded_sphere None)
      [ObjPlane scene_plane; shaded_sphere None; ObjPlane back_wall]
    = before ++ after.
Proof.
  split; [ reflexivity | ].
  apply (shadow_candidates same_class ray_along_z
           [ObjPlane scene_plane; shaded_sphere None; ObjPlane back_wall] 75
           (shaded_sphere None)).
  - apply closest_among_three.
  - reflexivity.
  - intros o [<- | [<- | [<- | []]]] Ho;
      [ reflexivity | contradiction | reflexivity ].
Defined.

Lemma sky_draws_witness :
  exists light g',
    light_at_ray (Some euclidean) unit_sky ray_inward 2 no_jitter
    = Ok (light, g') /\
    forall j, g' j = no_jitter (21 * 2 + j)%nat.
Proof.
  apply (sky_draws euclidean unit_sky (proj1 unit_sky_positive)
           (proj2 unit_sky_positive) ray_inward 2 no_jitter).
Defined.

Lemma light_at_ray_clamped_witness :
  exists light g',
    light_at_ray (Some euclidean) unit_sky ray_inward 2 no_jitter
    = Ok (light, g') /\
    0 <= vx light <= 1 /\ 0 <= vy light <= 1 /\ 0 <= vz light <= 1.
Proof.
  destruct (light_at_ray_total euclidean unit_sky (proj1 unit_sky_positive)
              (proj2 unit_sky_positive) ray_inward 2 no_jitter)
    as (light & g' & Heq & _).
  exists light, g'. split; [ exact Heq | ].
  apply (light_at_ray_clamped (Some euclidean) unit_sky ray_inward 2
           no_jitter g' light); [ simpl; lra | simpl; lra | exact Heq ].
Defined.

Lemma optical_depth_zero_length_witness :
  optical_depth (Some euclidean) unit_sky (mkvec 0 0 3) (mkvec 0 0 1) 0
    OPTICAL_DEPTH_SAMPLES no_jitter
  = Ok (0, no_jitter).
Proof.
  apply (optical_depth_zero_length euclidean unit_sky (mkvec 0 0 3)
           (mkvec 0 0 1) OPTICAL_DEPTH_SAMPLES no_jitter).
  simpl. lra.
Defined.

(** ** raytrace.py: objects that are not hit *)

(** An object that the ray does not meet at a strictly positive parameter
    (behind the origin, missed, or of a kind [intersect] does not know)
    can be added anywhere in the scene without changing the closest hit. *)
Theorem closest_ignores_misses (ray : Ray) (before after : list Object)
  (obj : Object) :
  ~ 0 < intersect ray obj ->
  closest ray (before ++ obj :: after) = closest ray (before ++ after).
Proof.
  intros Hmiss. unfold closest. rewrite !fold_left_app. cbn [fold_left].
  f_equal. unfold closer.
  destruct (fold_left _ before (Inf, None)) as [tmin obj_h].
  assert (H : ltb 0 (intersect ray obj) = false) by (apply ltb_false; lra).
  now rewrite H.
Qed.

Lemma closest_ignores_misses_witness :
  closest ray_along_z ([] ++ ObjOther None None :: [shaded_sphere None])
  = closest ray_along_z ([] ++ [shaded_sphere None]).
Proof.
  apply (closest_ignores_misses ray_along_z [] [shaded_sphere None]
           (ObjOther None None)).
  simpl. lra.
Defined.

(** * sky.py: the sums that [optical_depth] and [light_at_ray] return *)

Lemma shift_shift (a b : nat) (g : rng) : shift a (shift b g) = shift (b + a) g.
Proof.
  unfold shift. apply functional_extensionality. intros j. f_equal. lia.
Qed.

Lemma for_range_app {S : Type} (body : nat -> S -> M S)
  (l1 l2 : list nat) (s : S) (g : rng) :
  for_range (l1 ++ l2) body s g
  = match for_range l1 body s g with
    | Ok (s', g') => for_range l2 body s' g'
    | Raise e => Raise e
    end.
Proof.
  revert s g. induction l1 as [ | i l1 IH]; intros s g; [ reflexivity | ].
  cbn [app for_range]. unfold mbind.
  destruct (body i s g) as [[s1 g1] | e]; [ apply IH | reflexivity ].
Qed.

(** A loop over [range(n)] whose every turn returns, adds to the state and
    takes [k] draws, returns the state with all that was added, turn [i]
    adding what it adds after the [k * i] draws of the turns before. *)
Lemma for_range_sum {S : Type} (body : nat -> S -> M S) (k : nat)
  (add : S -> nat -> rng -> S) :
  (forall i s g, body i s g = Ok (add s i g, shift k g)) ->
  forall n s g,
    for_range (seq 0 n) body s g
    = Ok (fold_left (fun acc i => add acc i (shift (k * i) g)) (seq 0 n) s,
          shift (k * n) g).
Proof.
  intros Hbody count.
  induction count as [ | count IH]; intros s g.
  - cbn [seq for_range fold_left]. unfold ret. do 2 f_equal.
    unfold shift. apply functional_extensionality. intros j. f_equal. lia.
  - rewrite seq_S, for_range_app, IH, fold_left_app.
    cbn [Nat.add for_range fold_left]. unfold mbind. rewrite Hbody.
    unfold ret. do 2 f_equal. rewrite shift_shift. f_equal. lia.
Qed.

Lemma fold_left_ext_in {A B : Type} (f f' : A -> B -> A) (l : list B) :
  (forall a x, In x l -> f a x = f' a x) ->
  forall a, fold_left f l a = fold_left f' l a.
Proof.
  induction l as [ | x l IH]; intros H a; [ reflexivity | ].
  cbn [fold_left]. rewrite (H a x) by now left.
  apply IH. intros a' x' Hx'. apply H. now right.
Qed.

Lemma nth_map_seq (g : rng) (n j : nat) :
  (j < n)%nat -> nth j (map g (seq 0 n)) 0 = g j.
Proof.
  intros Hj.
  rewrite (nth_indep _ 0 (g O)) by (rewrite length_map, length_seq; lia).
  rewrite map_nth, seq_nth by lia. reflexivity.
Qed.

Section Sums.

Variable distance_fn : vec3 -> vec3 -> R.
Variable self : SkyDome.

Let utils_distance := Some distance_fn.

Lemma optical_depth_is_sum (p direction : vec3) (distance : R) (n : nat)
  (g : rng) :
  optical_depth utils_distance self p direction distance n g
  = Ok (optical_depth_sum distance_fn self p direction distance n g,
        shift n g).
Proof.
  unfold optical_depth, mbind at 1, random_sample, range.
  rewrite (for_range_sum _ 0
             (fun acc j _ =>
                acc
                + density_value distance_fn self
                    (p + ((INR j + nth j (map g (seq 0 n)) 0)
                          * (distance / INR n)) *: direction)%V
                  * ((INR j + nth j (map g (seq 0 n)) 0)
                     * (distance / INR n)))).
  - f_equal. f_equal. unfold optical_depth_sum.
    apply fold_left_ext_in. intros acc j Hj. apply in_seq in Hj.
    unfold jittered. rewrite nth_map_seq by lia. reflexivity.
  - intros j acc g0. unfold optical_depth_sample, mbind, lift, ret.
    unfold utils_distance. rewrite density_at_point_value. reflexivity.
Qed.

Hypothesis radius_pos : 0 < radius self.
Hypothesis height_pos : 0 < atmosphere_height self.

(** What one turn of the loop of [light_at_ray] adds to the light. *)
Definition light_at_ray_term (r : Ray) (view_samples : nat)
  (randoms : list R) (dist_to_atmosphere : R) (i : nat) (g : rng) : vec3 :=
  let distance :=
    dist_to_atmosphere / INR view_samples * (INR i + nth i randoms 0) in
  let sample_point := at_ r distance in
  let sun_ray := mkRay sample_point (sun_direction self) in
  let sun_depth :=
    optical_depth_sum distance_fn self sample_point (sun_direction self)
      (intersect sun_ray (atmosphere_obj self)) OPTICAL_DEPTH_SAMPLES g in
  let view_depth :=
    optical_depth_sum distance_fn self sample_point (vneg (nr r)) distance
      OPTICAL_DEPTH_SAMPLES (shift 10 g) in
  ((density_value distance_fn self sample_point
    * (dist_to_atmosphere / INR view_samples * nth i randoms 0))
   *: vmap exp ((- (sun_depth + view_depth)) *: SCATTERING_COEFFICIENTS))%V.

Lemma light_at_ray_sample_adds (r : Ray) (view_samples : nat)
  (randoms : list R) (dist_to_atmosphere : R) (i : nat) (light : vec3)
  (g : rng) :
  light_at_ray_sample utils_distance self r view_samples randoms
    dist_to_atmosphere i light g
  = Ok ((light
         + light_at_ray_term r view_samples randoms dist_to_atmosphere i g)%V,
        shift 20 g).
Proof.
  unfold light_at_ray_sample. rewrite never_in_shadow by lra.
  unfold mbind at 1. rewrite optical_depth_is_sum.
  unfold mbind at 1. rewrite optical_depth_is_sum.
  unfold mbind, lift, ret. unfold utils_distance.
  rewrite density_at_point_value, shift_shift. reflexivity.
Qed.

Lemma light_at_ray_loop_is_sum (r : Ray) (view_samples : nat) (g : rng) :
  for_range (range view_samples)
    (light_at_ray_sample utils_distance self r view_samples
       (map g (seq 0 view_samples)) (intersect r (atmosphere_obj self)))
    zeros (shift view_samples g)
  = Ok (light_at_ray_sum distance_fn self r view_samples g
          (fun i =>
             g i * (intersect r (atmosphere_obj self) / INR view_samples)),
        shift (21 * view_samples) g).
Proof.
  unfold range.
  rewrite (for_range_sum _ 20
             (fun light i g0 =>
                (light
                 + light_at_ray_term r view_samples
                     (map g (seq 0 view_samples))
                     (intersect r (atmosphere_obj self)) i g0)%V)
             (light_at_ray_sample_adds r view_samples _ _)).
  f_equal. f_equal.
  - unfold light_at_ray_sum. cbv zeta.
    apply fold_left_ext_in. intros light i Hi. apply in_seq in Hi.
    unfold light_at_ray_term. cbv zeta.
    rewrite nth_map_seq by lia. rewrite !shift_shift.
    replace (intersect r (atmosphere_obj self) / INR view_samples
             * (INR i + g i))
      with (jittered g (intersect r (atmosphere_obj self)) view_samples i)
      by (unfold jittered; ring).
    replace (intersect r (atmosphere_obj self) / INR view_samples * g i)
      with (g i * (intersect r (atmosphere_obj self) / INR view_samples))
      by ring.
    reflexivity.
  - rewrite shift_shift. f_equal; lia.
Qed.

Lemma light_at_ray_is_sum (r : Ray) (view_samples : nat) (g : rng) :
  light_at_ray utils_distance self r view_samples g
  = Ok (clip
          (vdivs
             (light_at_ray_sum distance_fn self r view_samples g
                (fun i =>
                   (g i * (intersect r (atmosphere_obj self)
                           / INR view_samples))%R)
              * SCATTERING_COEFFICIENTS)%V
             (radius self))
          0 1,
        shift (21 * view_samples) g).
Proof.
  unfold light_at_ray, mbind at 1, random_sample.
  change (fun i : nat => g (view_samples + i)%nat)
    with (shift view_samples g).
  unfold mbind at 1. rewrite light_at_ray_loop_is_sum. reflexivity.
Qed.

End Sums.

Lemma SCATTERING_COEFFICIENTS_floor : SCATTERING_COEFFICIENTS = zeros.
Proof. reflexivity. Qed.

Lemma phase_function_floor (v1 v2 : vec3) : phase_function v1 v2 = 0.
Proof.
  unfold phase_function. change (IZR (3 / 4)) with 0. ring.
Qed.

(** The two quotients of ints floor to zero, and with them the phase
    function and the scattering coefficients vanish: once [utils.distance]
    is bound, in a sky of positive radius and atmosphere height and on a
    ray whose parameter at the atmosphere and whose samples' sun-ray
    parameters are not the sentinel [-1], [in_scattering] and
    [light_at_ray] return black whatever the samples add up to. *)
Theorem sky_integrals_vanish (distance_fn : vec3 -> vec3 -> R)
  (self : SkyDome) (r : Ray) (view_samples : nat) (g : rng) :
  0 < radius self -> 0 < atmosphere_height self ->
  intersect r (atmosphere_obj self) <> -1 ->
  (forall i, (i < view_samples)%nat ->
     intersect
       (mkRay
          (at_ r (jittered g (intersect r (atmosphere_obj self))
                    view_samples i))
          (sun_direction self))
       (atmosphere_obj self) <> -1) ->
  (forall v1 v2, phase_function v1 v2 = 0) /\
  SCATTERING_COEFFICIENTS = zeros /\
  (exists g',
     in_scattering (Some distance_fn) self r view_samples g
     = Ok (zeros, g')) /\
  (exists g',
     light_at_ray (Some distance_fn) self r view_samples g
     = Ok (zeros, g')).
Proof.
  intros Hr Hh _ _.
  split; [ exact phase_function_floor | ].
  split; [ exact SCATTERING_COEFFICIENTS_floor | ]. split.
  - unfold in_scattering, mbind at 1, random_sample. unfold mbind at 1.
    destruct (for_range_advances
                (in_scattering_sample (Some distance_fn) self r view_samples
                   (map g (seq 0 view_samples))
                   (intersect r (atmosphere_obj self)))
                20
                (in_scattering_sample_advances distance_fn self Hr Hh r
                   view_samples _ _)
                (range view_samples) zeros
                (fun i => g (view_samples + i)%nat))
      as (acc & g' & Heq & _).
    rewrite Heq. unfold ret. exists g'. do 2 f_equal.
    rewrite SCATTERING_COEFFICIENTS_floor. unfold SUN_COLOR.
    destruct acc. vec_simpl. f_equal; ring.
  - rewrite light_at_ray_is_sum by assumption.
    eexists. do 2 f_equal.
    rewrite SCATTERING_COEFFICIENTS_floor.
    destruct (light_at_ray_sum distance_fn self r view_samples g _).
    unfold clip. vec_simpl.
    assert (Hzero : forall x, Rmin (Rmax (x * 0 / radius self) 0) 1 = 0).
    { intros x. replace (x * 0 / radius self) with 0 by (field; lra).
      unfold Rmin, Rmax.
      destruct (Rle_dec 0 0); destruct (Rle_dec _ 1); lra. }
    now rewrite !Hzero.
Qed.


(** The parameter at which the ray from a point of [ray_inward] towards the
    sun of [unit_sky] meets the atmosphere. *)
Lemma ray_inward_sun_ray (t : R) :
  t <= 4 ->
  intersect (mkRay (at_ ray_inward t) (sun_direction unit_sky))
    (atmosphere_obj unit_sky)
  = 2 - t.
Proof.
  intros Ht.
  unfold intersect, atmosphere_obj, intersect_sphere, ray_inward, unit_sky.
  cbv [center radius atmosphere_height sun_direction]. vec_simpl.
  repeat decide_cmp. cbn [orb]. sqrt_is 2. lra.
Qed.

Lemma two_samples (g : rng) (length : R) (i : nat) :
  jittered g length 2 i = (INR i + g i) * (length / 2).
Proof.
  unfold jittered. replace (INR 2) with 2 by (simpl; lra). reflexivity.
Qed.

(** Whatever the two draws, neither [ray_inward] nor the sun rays of its
    two samples miss the atmosphere of [unit_sky]. *)
Lemma ray_inward_no_sentinel (g : rng) :
  (forall j, 0 <= g j < 1) ->
  intersect ray_inward (atmosphere_obj unit_sky) <> -1 /\
  forall i, (i < 2)%nat ->
    intersect
      (mkRay
         (at_ ray_inward
            (jittered g (intersect ray_inward (atmosphere_obj unit_sky)) 2 i))
         (sun_direction unit_sky))
      (atmosphere_obj unit_sky) <> -1.
Proof.
  intros Hg. split.
  - rewrite ray_inward_enters. lra.
  - intros i Hi. rewrite two_samples, ray_inward_enters.
    pose proof (Hg i) as Hgi.
    destruct i as [ | [ | i]]; [ | | lia ];
      rewrite ray_inward_sun_ray by (simpl; lra); simpl; lra.
Qed.


Lemma no_jitter_in_range (j : nat) : 0 <= no_jitter j < 1.
Proof. unfold no_jitter. lra. Qed.



Lemma sky_integrals_vanish_witness :
  (exists g',
     in_scattering (Some euclidean) unit_sky ray_inward 2 no_jitter
     = Ok (zeros, g')) /\
  (exists g',
     light_at_ray (Some euclidean) unit_sky ray_inward 2 no_jitter
     = Ok (zeros, g')).
Proof.
  apply (sky_integrals_vanish euclidean unit_sky ray_inward 2 no_jitter).
  - simpl; lra.
  - simpl; lra.
  - apply (ray_inward_no_sentinel no_jitter no_jitter_in_range).
  - apply (ray_inward_no_sentinel no_jitter no_jitter_in_range).
Defined.

